(** * Bhadwa game server: room registry and daily voting

    Shallow embedding of [app.py].  The Flask handlers [create_room],
    [vote], [reset_votes], [status] and the timer callback [end_voting]
    are functions over an explicit server state: the global [rooms]
    registry and the sleeping timer threads.  [random.choice] takes its
    random draw as an argument. *)

From stdpp Require Import gmap strings list fin_maps.

#[local] Set Warnings "-clear-no-such-hyp".

Local Open Scope string_scope.
Local Open Scope list_scope.
Local Open Scope nat_scope.

(** ** Python dictionaries with string keys

    A Python [dict] iterates in insertion order, and the order is visible
    to the program: [votes.items()] feeds the list handed to
    [random.choice], and [status] lists the keys of [players].  The two
    per-room dictionaries are therefore association lists kept in
    insertion order; assigning to an existing key keeps its position. *)

Section Dict.
Context {V : Type}.

Definition dict := list (string * V).

Definition dict_empty : dict := [].

(** [d.get(k)] *)
Fixpoint dict_get (k : string) (d : dict) : option V :=
  match d with
  | [] => None
  | (k', v) :: d' => if decide (k = k') then Some v else dict_get k d'
  end.

(** [d[k] = v] *)
Fixpoint dict_set (k : string) (v : V) (d : dict) : dict :=
  match d with
  | [] => [(k, v)]
  | (k', v') :: d' =>
      if decide (k = k') then (k', v) :: d' else (k', v') :: dict_set k v d'
  end.

(** [k in d]; a missing JSON field is [None], which is never a key. *)
Definition dict_mem (k : option string) (d : dict) : bool :=
  match k with
  | None => false
  | Some k => bool_decide (is_Some (dict_get k d))
  end.

Definition dict_keys (d : dict) : list string := d.*1.
Definition dict_values (d : dict) : list V := d.*2.
Definition dict_items (d : dict) : list (string * V) := d.

(** [not d] *)
Definition dict_falsy (d : dict) : bool :=
  match d with [] => true | _ => false end.

(** A dictionary holds each key once. *)
Definition dict_wf (d : dict) : Prop := NoDup (dict_keys d).

#[global] Instance dict_wf_dec (d : dict) : Decision (dict_wf d) :=
  decide (NoDup (dict_keys d)).
End Dict.

Arguments dict V : clear implicits.

(** ** Room data *)

(** [{"is_bhadwa": bool, "voted_today": bool}] *)
Record player_state := PlayerState {
  is_bhadwa : bool;
  voted_today : bool
}.

Record room := Room {
  players : dict player_state;
  bhadwa : string;
  votes : dict nat;
  game_active : bool;
  result : option string
}.

Definition set_voted_today (b : bool) (p : player_state) : player_state :=
  {| is_bhadwa := is_bhadwa p; voted_today := b |}.

Definition set_players (ps : dict player_state) (r : room) : room :=
  {| players := ps; bhadwa := bhadwa r; votes := votes r;
     game_active := game_active r; result := result r |}.

Definition set_votes (vs : dict nat) (r : room) : room :=
  {| players := players r; bhadwa := bhadwa r; votes := vs;
     game_active := game_active r; result := result r |}.

Definition set_game_active (b : bool) (r : room) : room :=
  {| players := players r; bhadwa := bhadwa r; votes := votes r;
     game_active := b; result := result r |}.

Definition set_result (s : string) (r : room) : room :=
  {| players := players r; bhadwa := bhadwa r; votes := votes r;
     game_active := game_active r; result := Some s |}.

(** The server: the global [rooms] dictionary (looked up by key only) and
    the room ids of the timer threads that are still asleep. *)
Record state := State {
  rooms : gmap string room;
  timers : list string
}.

Definition init : state := {| rooms := ∅; timers := [] |}.

(** A handler holds a reference to the room object stored in [rooms]; its
    in-place mutation is a write back under the same key. *)
Definition store (room_id : string) (r : room) (st : state) : state :=
  {| rooms := <[room_id := r]> (rooms st); timers := timers st |}.

(** ** Responses *)

Inductive response :=
| Error (error : string) (code : nat)
| Ended (error : string) (res : option string)
| Message (message : string)
| Created (message : string) (bhadwa_name : string)
| Info (player_list : list string) (bhadwa_name : string)
       (vote_counts : dict nat) (active : bool) (res : option string)
| Crashed.

(** The error taxonomy, as the handlers spell it. *)
Definition InvalidInput : response := Error "room_id and player_names required" 400.
Definition InvalidPlayerCount : response :=
  Error "Number of players must be between 2 and 20" 400.
Definition DuplicatePlayerName : response := Error "Player names must be unique" 400.
Definition RoomNotFound : response := Error "Room does not exist" 404.
Definition UnknownVoter : response := Error "Voter not in room" 400.
Definition UnknownTarget : response := Error "Vote target not in room" 400.
Definition AlreadyVotedToday : response := Error "You have already voted today" 400.
Definition VotingClosed_vote (res : option string) : response :=
  Ended "Voting period has ended" res.
Definition VotingClosed_reset (res : option string) : response :=
  Ended "Game has ended" res.

(** ** Library calls *)

(** [random.choice(seq)]: the element at a drawn index below [len(seq)];
    [IndexError] on an empty sequence. *)
Definition choice {A} (rnd : nat) (seq : list A) : option A :=
  seq !! (rnd mod length seq).

(** [max(values)]; [ValueError] on an empty sequence. *)
Definition py_max (l : list nat) : option nat :=
  match l with
  | [] => None
  | x :: l' => Some (foldl Nat.max x l')
  end.

(** [not s] for an optional JSON string. *)
Definition falsy_str (s : option string) : bool :=
  match s with
  | None => true
  | Some s => bool_decide (s = "")
  end.

(** [not l] for an optional JSON list. *)
Definition falsy_list {A} (l : option (list A)) : bool :=
  match l with
  | None | Some [] => true
  | Some (_ :: _) => false
  end.

(** [len(set(names))] *)
Definition distinct_count (names : list string) : nat :=
  size (list_to_set (C := gset string) names).

(** ** The handlers *)

Definition result_text (eliminated hidden : string) : string :=
  if decide (eliminated = hidden)
  then "Bhadwa " +:+ eliminated +:+ " was eliminated. Innocents win!"
  else eliminated +:+ " was eliminated. Bhadwa wins.".

(** [candidates = [p for p, v in votes.items() if v == max_votes]] *)
Definition candidates (max_votes : nat) (vs : dict nat) : list string :=
  (filter (λ pv, pv.2 = max_votes) (dict_items vs)).*1.

Definition end_voting (rnd : nat) (room_id : string) (st : state) : state :=
  match rooms st !! room_id with
  | None => st
  | Some room0 =>
      if negb (game_active room0) then st
      else
        let room1 := set_game_active false room0 in
        let vs := votes room1 in
        if dict_falsy vs
        then store room_id (set_result "No votes cast. No elimination." room1) st
        else
          match py_max (dict_values vs) with
          | None => store room_id room1 st
          | Some max_votes =>
              match choice rnd (candidates max_votes vs) with
              | None => store room_id room1 st
              | Some eliminated =>
                  store room_id
                    (set_result (result_text eliminated (bhadwa room1)) room1) st
              end
          end
  end.

(** [{name: {...} for name in player_names}] *)
Definition new_players (hidden : string) (player_names : list string)
  : dict player_state :=
  foldl (λ d name,
           dict_set name
             {| is_bhadwa := bool_decide (name = hidden); voted_today := false |} d)
        dict_empty player_names.

Definition create_room (rnd : nat) (room_id : option string)
    (player_names : option (list string)) (st : state) : state * response :=
  if falsy_str room_id || falsy_list player_names then (st, InvalidInput)
  else
    match room_id, player_names with
    | Some rid, Some names =>
        if bool_decide (length names < 2) || bool_decide (20 < length names)
        then (st, InvalidPlayerCount)
        else if negb (bool_decide (distinct_count names = length names))
        then (st, DuplicatePlayerName)
        else
          match choice rnd names with
          | None => (st, Crashed)
          | Some hidden =>
              let r := {| players := new_players hidden names;
                          bhadwa := hidden;
                          votes := dict_empty;
                          game_active := true;
                          result := None |} in
              ({| rooms := <[rid := r]> (rooms st);
                  timers := timers st ++ [rid] |},
               Created ("Room " +:+ rid +:+ " created with players.") hidden)
          end
    | _, _ => (st, InvalidInput)
    end.

Definition vote (room_id voter vote_for : option string) (st : state)
  : state * response :=
  match room_id ≫= (λ rid, (rid,.) <$> rooms st !! rid) with
  | None => (st, RoomNotFound)
  | Some (rid, r) =>
      if negb (game_active r) then (st, VotingClosed_vote (result r))
      else if negb (dict_mem voter (players r)) then (st, UnknownVoter)
      else if negb (dict_mem vote_for (players r)) then (st, UnknownTarget)
      else
        match voter, vote_for with
        | Some v, Some t =>
            match dict_get v (players r) with
            | None => (st, Crashed)
            | Some ps =>
                if voted_today ps then (st, AlreadyVotedToday)
                else
                  let r1 := set_players
                              (dict_set v (set_voted_today true ps) (players r)) r in
                  let r2 := set_votes
                              (dict_set t (default 0 (dict_get t (votes r1)) + 1)
                                 (votes r1)) r1 in
                  (store rid r2 st, Message (v +:+ " voted for " +:+ t))
            end
        | _, _ => (st, Crashed)
        end
  end.

Definition reset_votes (room_id : option string) (st : state) : state * response :=
  match room_id ≫= (λ rid, (rid,.) <$> rooms st !! rid) with
  | None => (st, RoomNotFound)
  | Some (rid, r) =>
      if negb (game_active r) then (st, VotingClosed_reset (result r))
      else
        (store rid (set_players (prod_map id (set_voted_today false) <$> players r) r) st,
         Message "Votes reset, new day started")
  end.

Definition status (room_id : option string) (st : state) : state * response :=
  match room_id ≫= (λ rid, rooms st !! rid) with
  | None => (st, RoomNotFound)
  | Some r =>
      (st, Info (dict_keys (players r)) (bhadwa r) (votes r) (game_active r) (result r))
  end.

(** ** The server as a transition system *)

Inductive event :=
| CreateRoom (rnd : nat) (room_id : option string)
             (player_names : option (list string))
| CastVote (room_id voter vote_for : option string)
| ResetDay (room_id : option string)
| GetStatus (room_id : option string)
| TimerFires (rnd : nat) (room_id : string).

(** The thread leaves the sleeping set when it wakes. *)
Fixpoint wake (room_id : string) (ts : list string) : list string :=
  match ts with
  | [] => []
  | t :: ts' => if decide (room_id = t) then ts' else t :: wake room_id ts'
  end.

(** One event; a timer can only fire for a thread that [create_room]
    started and that has not fired yet. *)
Definition handle (ev : event) (st : state) : state * option response :=
  match ev with
  | CreateRoom rnd room_id player_names =>
      prod_map id Some (create_room rnd room_id player_names st)
  | CastVote room_id voter vote_for =>
      prod_map id Some (vote room_id voter vote_for st)
  | ResetDay room_id => prod_map id Some (reset_votes room_id st)
  | GetStatus room_id => prod_map id Some (status room_id st)
  | TimerFires rnd room_id =>
      if bool_decide (room_id ∈ timers st)
      then (end_voting rnd room_id
              {| rooms := rooms st; timers := wake room_id (timers st) |}, None)
      else (st, None)
  end.

Definition run (evs : list event) (st : state) : state :=
  foldl (λ s ev, (handle ev s).1) st evs.

Definition reachable (st : state) : Prop := ∃ evs, run evs init = st.

(** * Vocabulary of the properties *)

(** The players whose [is_bhadwa] flag is set, in dictionary order. *)
Definition hidden_role_players (r : room) : list string :=
  (filter (λ kv, is_bhadwa kv.2 = true) (dict_items (players r))).*1.

(** The room that [create_room] registers. *)
Definition fresh_room (hidden : string) (names : list string) : room :=
  {| players := new_players hidden names; bhadwa := hidden; votes := dict_empty;
     game_active := true; result := None |}.

(** The room after [end_voting] has stored [text] as its result. *)
Definition closed_with (text : string) (r : room) : room :=
  set_result text (set_game_active false r).

(** The room after [voter], whose entry was [ps], has voted for [target]. *)
Definition after_vote (voter target : string) (ps : player_state) (r : room) : room :=
  set_votes (dict_set target (default 0 (dict_get target (votes r)) + 1) (votes r))
    (set_players (dict_set voter (set_voted_today true ps) (players r)) r).

(** [votes.get(p, 0)] *)
Definition vote_count (p : string) (r : room) : nat := default 0 (dict_get p (votes r)).

(** Votes cast one after the other for the same target. *)
Fixpoint cast_votes (rid target : string) (voters : list string) (st : state)
  : state * list response :=
  match voters with
  | [] => (st, [])
  | v :: voters' =>
      let '(st1, resp) := vote (Some rid) (Some v) (Some target) st in
      let '(st2, resps) := cast_votes rid target voters' st1 in
      (st2, resp :: resps)
  end.

(** The room after the [voted_today] flags are cleared. *)
Definition new_day (r : room) : room :=
  set_players (prod_map id (set_voted_today false) <$> players r) r.

(** What an event may have done to the room stored under [rid]: nothing,
    or one of the four writes the program makes. *)
Inductive room_effect (st : state) (rid : string) : event → option room → Prop :=
| eff_none ev :
    room_effect st rid ev (rooms st !! rid)
| eff_create rnd names hidden :
    NoDup names → hidden ∈ names →
    room_effect st rid (CreateRoom rnd (Some rid) (Some names))
      (Some (fresh_room hidden names))
| eff_vote r voter target ps :
    rooms st !! rid = Some r → game_active r = true →
    dict_get voter (players r) = Some ps → voted_today ps = false →
    target ∈ dict_keys (players r) →
    room_effect st rid (CastVote (Some rid) (Some voter) (Some target))
      (Some (after_vote voter target ps r))
| eff_reset r :
    rooms st !! rid = Some r → game_active r = true →
    room_effect st rid (ResetDay (Some rid)) (Some (new_day r))
| eff_close rnd r r' :
    rooms st !! rid = Some r → game_active r = true →
    game_active r' = false → players r' = players r → votes r' = votes r →
    bhadwa r' = bhadwa r →
    room_effect st rid (TimerFires rnd rid) (Some r').

(** Events that leave the voting day of room [rid] running: anything but
    a reset of that room, a creation under its id, or its timer. *)
Definition same_day (rid : string) (ev : event) : bool :=
  match ev with
  | CreateRoom _ room_id _ => bool_decide (room_id ≠ Some rid)
  | ResetDay room_id => bool_decide (room_id ≠ Some rid)
  | TimerFires _ room_id => bool_decide (room_id ≠ rid)
  | CastVote _ _ _ | GetStatus _ => true
  end.

(** [voter] has voted today in the open room [rid]. *)
Definition has_voted (rid voter : string) (st : state) : Prop :=
  ∃ r ps, rooms st !! rid = Some r ∧ game_active r = true ∧
          dict_get voter (players r) = Some ps ∧ voted_today ps = true.

(** Both dictionaries hold each key once, and only players have votes. *)
Definition room_ok (r : room) : Prop :=
  dict_wf (players r) ∧ dict_wf (votes r) ∧
  ∀ p, p ∈ dict_keys (votes r) → p ∈ dict_keys (players r).

(** The room id an event is addressed to. *)
Definition event_room (ev : event) : option string :=
  match ev with
  | CreateRoom _ room_id _ | CastVote room_id _ _
  | ResetDay room_id | GetStatus room_id => room_id
  | TimerFires _ room_id => Some room_id
  end.

(** A creation request under the id [rid]. *)
Definition recreates (rid : string) (ev : event) : bool :=
  match ev with
  | CreateRoom _ room_id _ => bool_decide (room_id = Some rid)
  | _ => false
  end.

(** The requests that pass the three checks of [create_room]. *)
Definition valid_creation (room_id : option string)
    (player_names : option (list string)) : Prop :=
  ∃ rid names, room_id = Some rid ∧ player_names = Some names ∧ rid ≠ "" ∧
               2 ≤ length names ≤ 20 ∧ NoDup names.

(** [sum(votes.values())] *)
Definition tally_total (r : room) : nat := sum_list (dict_values (votes r)).

(** Events that neither wake a timer of room [rid] nor create a room
    under its id. *)
Definition leaves_timer (rid : string) (ev : event) : bool :=
  match ev with
  | CreateRoom _ room_id _ => bool_decide (room_id ≠ Some rid)
  | TimerFires _ room_id => bool_decide (room_id ≠ rid)
  | CastVote _ _ _ | ResetDay _ | GetStatus _ => true
  end.

(** How many timer threads are asleep for room [rid]. *)
Definition pending (rid : string) (ts : list string) : nat :=
  length (filter (λ t, t = rid) ts).

(** ** Sample rooms *)

(** Twenty pairwise distinct names. *)
Definition twenty_names : list string :=
  ["p01"; "p02"; "p03"; "p04"; "p05"; "p06"; "p07"; "p08"; "p09"; "p10";
   "p11"; "p12"; "p13"; "p14"; "p15"; "p16"; "p17"; "p18"; "p19"; "p20"].

(** The tally [{A: 3, B: 3, C: 1}] in an open room of three players. *)
Definition tied_room : room :=
  {| players := [("A", PlayerState false true); ("B", PlayerState true true);
                 ("C", PlayerState false true)];
     bhadwa := "B";
     votes := [("A", 3); ("B", 3); ("C", 1)];
     game_active := true;
     result := None |}.

Definition tied_state : state := {| rooms := {["den" := tied_room]}; timers := ["den"] |}.

(** An open room of three players, nobody has voted. *)
Definition day_room : room := fresh_room "bala" ["asha"; "bala"; "chitra"].

Definition day_state : state := {| rooms := {["den" := day_room]}; timers := ["den"] |}.

(** [day_state] after asha has voted for chitra. *)
Definition voted_room : room :=
  after_vote "asha" "chitra" (PlayerState false false) day_room.

Definition voted_state : state := store "den" voted_room day_state.

(** [voted_state] after its timer has fired. *)
Definition closed_room : room :=
  closed_with "chitra was eliminated. Bhadwa wins." voted_room.

Definition closed_state : state := store "den" closed_room voted_state.

(** [voted_state] after its timer thread has woken and closed the vote. *)
Definition fired_state : state := {| rooms := rooms closed_state; timers := [] |}.

(** * Properties *)

(** ** Dictionary laws *)

Section DictLaws.
Context {V : Type}.
Implicit Types (d : dict V) (k : string) (v : V).

Lemma dict_get_set_eq k v d : dict_get k (dict_set k v d) = Some v.
Proof.
  induction d as [|[k' v'] d IH]; simpl.
  - by rewrite decide_True.
  - destruct (decide (k = k')) as [->|Hne]; simpl.
    + by rewrite decide_True.
    + by rewrite decide_False.
Qed.

Lemma dict_get_set_ne k k' v d :
  k ≠ k' → dict_get k' (dict_set k v d) = dict_get k' d.
Proof.
  intros Hne. induction d as [|[k0 v0] d IH]; simpl.
  - by rewrite decide_False.
  - destruct (decide (k = k0)) as [->|Hk]; simpl.
    + by rewrite !decide_False.
    + destruct (decide (k' = k0)); done.
Qed.

Lemma dict_get_set k k' v d :
  dict_get k' (dict_set k v d) = if decide (k = k') then Some v else dict_get k' d.
Proof.
  destruct (decide (k = k')) as [->|Hne].
  - apply dict_get_set_eq.
  - by apply dict_get_set_ne.
Qed.

Lemma dict_get_None k d : dict_get k d = None ↔ k ∉ dict_keys d.
Proof.
  unfold dict_keys. induction d as [|[k' v'] d IH]; simpl.
  - split; [intros _; apply not_elem_of_nil | done].
  - rewrite not_elem_of_cons. destruct (decide (k = k')) as [->|Hne].
    + split; [done | by intros [? _]].
    + rewrite IH. split; [done | by intros [_ ?]].
Qed.

Lemma dict_get_is_Some k d : is_Some (dict_get k d) ↔ k ∈ dict_keys d.
Proof.
  destruct (decide (k ∈ dict_keys d)) as [Hin|Hout].
  - split; [done|]. intros _. apply not_eq_None_Some.
    by rewrite dict_get_None; intros ?.
  - apply dict_get_None in Hout as Hnone. rewrite Hnone.
    split; [by intros [? ?] | done].
Qed.

Lemma dict_mem_Some k d : dict_mem (Some k) d = true ↔ k ∈ dict_keys d.
Proof. unfold dict_mem. by rewrite bool_decide_eq_true, dict_get_is_Some. Qed.

Lemma dict_mem_true_inv o d : dict_mem o d = true → ∃ k, o = Some k ∧ k ∈ dict_keys d.
Proof.
  destruct o as [k|]; [|done]. intros Hm. exists k. by rewrite <-dict_mem_Some.
Qed.

Lemma dict_get_Some_elem k v d : dict_get k d = Some v → (k, v) ∈ dict_items d.
Proof.
  unfold dict_items. induction d as [|[k' v'] d IH]; simpl; [done|].
  destruct (decide (k = k')) as [->|Hne].
  - intros [= ->]. apply list_elem_of_here.
  - intros Hget. apply list_elem_of_further. auto.
Qed.

Lemma dict_elem_get k v d : dict_wf d → (k, v) ∈ dict_items d → dict_get k d = Some v.
Proof.
  unfold dict_wf, dict_keys, dict_items.
  induction d as [|[k' v'] d IH]; simpl; intros Hwf Hin.
  - by apply elem_of_nil in Hin.
  - apply NoDup_cons in Hwf as [Hfresh Hwf].
    apply elem_of_cons in Hin as [[= -> ->]|Hin].
    + by rewrite decide_True.
    + rewrite decide_False; [auto|].
      intros ->. apply Hfresh. apply list_elem_of_fmap. by exists (k', v).
Qed.

(** Assigning to a present key keeps the key order. *)
Lemma dict_keys_set_present k v d :
  k ∈ dict_keys d → dict_keys (dict_set k v d) = dict_keys d.
Proof.
  unfold dict_keys. induction d as [|[k' v'] d IH]; simpl; intros Hin.
  - by apply elem_of_nil in Hin.
  - destruct (decide (k = k')) as [->|Hne]; simpl; [done|].
    apply elem_of_cons in Hin as [?|Hin]; [done|]. f_equal. by apply IH.
Qed.

(** Assigning to a new key appends it. *)
Lemma dict_set_fresh k v d : k ∉ dict_keys d → dict_set k v d = d ++ [(k, v)].
Proof.
  unfold dict_keys. induction d as [|[k' v'] d IH]; simpl; intros Hout; [done|].
  apply not_elem_of_cons in Hout as [Hne Hout].
  rewrite decide_False by done. f_equal. by apply IH.
Qed.

Lemma dict_keys_set k v d :
  dict_keys (dict_set k v d) =
  if decide (k ∈ dict_keys d) then dict_keys d else dict_keys d ++ [k].
Proof.
  destruct (decide (k ∈ dict_keys d)) as [Hin|Hout].
  - by apply dict_keys_set_present.
  - rewrite dict_set_fresh by done. unfold dict_keys. by rewrite fmap_app.
Qed.

Lemma elem_of_dict_keys_set k k' v d :
  k' ∈ dict_keys (dict_set k v d) ↔ k' = k ∨ k' ∈ dict_keys d.
Proof.
  rewrite dict_keys_set. destruct (decide (k ∈ dict_keys d)).
  - split; [auto | by intros [->|?]].
  - rewrite elem_of_app, list_elem_of_singleton. tauto.
Qed.

Lemma dict_wf_set k v d : dict_wf d → dict_wf (dict_set k v d).
Proof.
  unfold dict_wf. rewrite dict_keys_set.
  destruct (decide (k ∈ dict_keys d)); [done|].
  intros Hwf. apply NoDup_app. split_and!; [done| |apply NoDup_singleton].
  intros x Hx ->%list_elem_of_singleton. done.
Qed.

Lemma dict_falsy_true d : dict_falsy d = true ↔ d = [].
Proof. by destruct d. Qed.

Lemma dict_falsy_false d : dict_falsy d = false ↔ d ≠ [].
Proof. by destruct d. Qed.
End DictLaws.

(** Rewriting every value in place keeps the keys and their order. *)
Lemma dict_keys_fmap {V W} (f : V → W) (d : dict V) :
  dict_keys (prod_map id f <$> d) = dict_keys d.
Proof.
  unfold dict_keys. rewrite <-list_fmap_compose. apply list_fmap_ext.
  by intros _ [k v] _.
Qed.

Lemma dict_get_fmap {V W} (f : V → W) k (d : dict V) :
  dict_get k (prod_map id f <$> d) = f <$> dict_get k d.
Proof.
  induction d as [|[k' v'] d IH]; simpl; [done|].
  destruct (decide (k = k')); done.
Qed.

(** ** Library calls *)

Lemma choice_is_Some {A} rnd (seq : list A) : seq ≠ [] → is_Some (choice rnd seq).
Proof.
  intros Hne. unfold choice. apply lookup_lt_is_Some.
  apply Nat.mod_upper_bound. by destruct seq.
Qed.

Lemma choice_elem {A} rnd (seq : list A) x : choice rnd seq = Some x → x ∈ seq.
Proof. unfold choice. apply list_elem_of_lookup_2. Qed.

(** Every element is the outcome of some draw. *)
Lemma choice_covers {A} (seq : list A) x : x ∈ seq → ∃ rnd, choice rnd seq = Some x.
Proof.
  intros [i Hi]%list_elem_of_lookup_1. exists i. unfold choice.
  rewrite Nat.mod_small; [done|]. by eapply lookup_lt_Some.
Qed.

Lemma foldl_max_spec (l : list nat) x :
  x ≤ foldl Nat.max x l ∧
  (∀ y, y ∈ l → y ≤ foldl Nat.max x l) ∧
  foldl Nat.max x l ∈ x :: l.
Proof.
  revert x. induction l as [|a l IH]; intros x; simpl.
  - split_and!; [lia | by intros y ?%elem_of_nil | apply list_elem_of_here].
  - destruct (IH (x `max` a)) as (Hge & Hall & Hin). split_and!.
    + lia.
    + intros y [->|Hy]%elem_of_cons; [lia | auto].
    + apply elem_of_cons in Hin as [Heq|Hin].
      * rewrite Heq. destruct (Nat.max_spec x a) as [[_ ->]|[_ ->]].
        -- apply list_elem_of_further, list_elem_of_here.
        -- apply list_elem_of_here.
      * by do 2 apply list_elem_of_further.
Qed.

Lemma py_max_spec (l : list nat) :
  l ≠ [] → ∃ m, py_max l = Some m ∧ m ∈ l ∧ ∀ y, y ∈ l → y ≤ m.
Proof.
  destruct l as [|x l]; [done|]. intros _. simpl.
  destruct (foldl_max_spec l x) as (Hge & Hall & Hin).
  eexists. split_and!; [done | done |].
  intros y [->|Hy]%elem_of_cons; auto.
Qed.

Lemma distinct_count_le (names : list string) : distinct_count names ≤ length names.
Proof.
  unfold distinct_count. induction names as [|x names IH].
  - by rewrite list_to_set_nil, size_empty.
  - rewrite list_to_set_cons, size_union_alt, size_singleton. cbn [length].
    assert (size (list_to_set names ∖ {[x]} : gset string)
            ≤ size (list_to_set names : gset string)) as Hle
      by (apply subseteq_size; set_solver).
    lia.
Qed.

(** [len(set(names)) == len(names)] says the names are pairwise distinct. *)
Lemma distinct_count_NoDup (names : list string) :
  distinct_count names = length names ↔ NoDup names.
Proof.
  split; [|apply size_list_to_set].
  unfold distinct_count. induction names as [|x names IH]; intros Hsz.
  - apply NoDup_nil_2.
  - rewrite list_to_set_cons in Hsz. cbn [length] in Hsz.
    pose proof (distinct_count_le names) as Hle. unfold distinct_count in Hle.
    destruct (decide (x ∈ names)) as [Hin|Hout].
    + assert ({[x]} ∪ list_to_set names = (list_to_set names : gset string)) as Heq
        by set_solver.
      rewrite Heq in Hsz. lia.
    + apply NoDup_cons_2; [done|]. apply IH.
      rewrite size_union, size_singleton in Hsz by set_solver. lia.
Qed.

(** ** Room creation *)

Lemma new_players_fmap hidden (names : list string) :
  NoDup names →
  new_players hidden names =
  (λ name, (name, {| is_bhadwa := bool_decide (name = hidden);
                     voted_today := false |})) <$> names.
Proof.
  unfold new_players, dict_empty.
  set (f := λ name, (name, {| is_bhadwa := bool_decide (name = hidden);
                              voted_today := false |})).
  intros Hnd. change [] with (f <$> []) at 1.
  assert (NoDup ([] ++ names)) as Hnd' by done. clear Hnd.
  change (f <$> names) with (f <$> ([] ++ names)).
  generalize dependent (@nil string). induction names as [|x names IH]; intros acc Hnd.
  - simpl. by rewrite app_nil_r.
  - simpl. rewrite dict_set_fresh.
    + replace (acc ++ x :: names) with ((acc ++ [x]) ++ names) in *
        by (by rewrite <-app_assoc).
      rewrite <-IH by done. by rewrite fmap_app.
    + unfold dict_keys. rewrite <-list_fmap_compose.
      apply NoDup_app in Hnd as (_ & Hdisj & _). intros Hin.
      apply list_elem_of_fmap in Hin as (y & -> & Hy).
      apply (Hdisj _ Hy). apply list_elem_of_here.
Qed.

Lemma new_players_keys hidden names :
  NoDup names → dict_keys (new_players hidden names) = names.
Proof.
  intros Hnd. rewrite new_players_fmap by done. unfold dict_keys.
  rewrite <-list_fmap_compose. apply list_fmap_id.
Qed.

Lemma new_players_get hidden names name :
  NoDup names → name ∈ names →
  dict_get name (new_players hidden names) =
  Some {| is_bhadwa := bool_decide (name = hidden); voted_today := false |}.
Proof.
  intros Hnd Hin. apply dict_elem_get.
  - unfold dict_wf. by rewrite new_players_keys.
  - rewrite new_players_fmap by done. unfold dict_items.
    apply list_elem_of_fmap. by exists name.
Qed.

Lemma filter_eq_absent (names : list string) hidden :
  hidden ∉ names → filter (λ name, name = hidden) names = [].
Proof.
  induction names as [|x names IH]; intros Hout; [done|].
  apply not_elem_of_cons in Hout as [Hne Hout].
  rewrite filter_cons_False by (by intros ->). auto.
Qed.

Lemma filter_eq_NoDup (names : list string) hidden :
  NoDup names → hidden ∈ names → filter (λ name, name = hidden) names = [hidden].
Proof.
  induction names as [|x names IH]; intros Hnd Hin; [by apply elem_of_nil in Hin|].
  apply NoDup_cons in Hnd as [Hfresh Hnd].
  destruct (decide (x = hidden)) as [->|Hne].
  - rewrite filter_cons_True by done. f_equal. by apply filter_eq_absent.
  - rewrite filter_cons_False by done.
    apply elem_of_cons in Hin as [?|Hin]; [done | auto].
Qed.

Lemma hidden_role_players_new hidden names vs act res :
  NoDup names → hidden ∈ names →
  hidden_role_players
    {| players := new_players hidden names; bhadwa := hidden; votes := vs;
       game_active := act; result := res |} = [hidden].
Proof.
  intros Hnd Hin. unfold hidden_role_players, dict_items. simpl.
  rewrite new_players_fmap by done. rewrite <-(filter_eq_NoDup names hidden) by done.
  clear. induction names as [|x names IH]; [done|]. rewrite fmap_cons.
  destruct (decide (x = hidden)) as [->|Hne].
  - rewrite !filter_cons_True; [|done|by simpl; rewrite bool_decide_eq_true].
    rewrite fmap_cons. simpl. by f_equal.
  - rewrite !filter_cons_False; [done|done|by simpl; rewrite bool_decide_eq_true].
Qed.

Lemma create_room_ok rnd rid names st :
  rid ≠ "" → 2 ≤ length names ≤ 20 → NoDup names →
  ∃ hidden,
    choice rnd names = Some hidden ∧
    create_room rnd (Some rid) (Some names) st =
    ({| rooms := <[rid := fresh_room hidden names]> (rooms st);
        timers := timers st ++ [rid] |},
     Created ("Room " +:+ rid +:+ " created with players.") hidden).
Proof.
  intros Hrid [Hlo Hhi] Hnd.
  destruct (choice_is_Some rnd names) as [hidden Hch].
  { intros ->. simpl in Hlo. lia. }
  exists hidden. split; [done|]. unfold create_room, falsy_str, falsy_list.
  rewrite bool_decide_eq_false_2 by done.
  destruct names as [|n0 names]; [simpl in Hlo; lia|]. cbn [orb].
  rewrite (bool_decide_eq_false_2 (length _ < 2)) by lia.
  rewrite (bool_decide_eq_false_2 (20 < length _)) by lia. cbn [orb].
  rewrite bool_decide_eq_true_2 by (by apply distinct_count_NoDup). cbn [negb].
  by rewrite Hch.
Qed.

Lemma create_room_Created_inv rnd room_id player_names st st' msg hidden :
  create_room rnd room_id player_names st = (st', Created msg hidden) →
  ∃ rid names,
    room_id = Some rid ∧ player_names = Some names ∧ rid ≠ "" ∧
    2 ≤ length names ≤ 20 ∧ NoDup names ∧ choice rnd names = Some hidden ∧
    st' = {| rooms := <[rid := fresh_room hidden names]> (rooms st);
             timers := timers st ++ [rid] |}.
Proof.
  unfold create_room.
  destruct (falsy_str room_id || falsy_list player_names) eqn:Hfalsy; [done|].
  apply orb_false_iff in Hfalsy as [Hrid Hnames].
  destruct room_id as [rid|]; [|done]. destruct player_names as [names|]; [|done].
  destruct (bool_decide (length names < 2) || bool_decide (20 < length names))
    eqn:Hcount; [done|].
  apply orb_false_iff in Hcount as [Hlo%bool_decide_eq_false Hhi%bool_decide_eq_false].
  destruct (bool_decide (distinct_count names = length names)) eqn:Hdistinct;
    cbn [negb]; [|done].
  apply bool_decide_eq_true, distinct_count_NoDup in Hdistinct.
  destruct (choice rnd names) as [h|] eqn:Hch; [|done].
  intros [= <- _ <-]. exists rid, names.
  split_and!; try done; try lia.
  simpl in Hrid. by apply bool_decide_eq_false in Hrid.
Qed.

(** C1: a successful room creation leaves exactly one player with the
    hidden-role flag: the players whose [is_bhadwa] flag is set are the
    single name returned by the draw, that name is one of [player_names],
    the room's [bhadwa] field holds it, its own flag is set and every other
    player's flag is clear. *)
Theorem create_room_one_hidden_role rnd room_id player_names st st' msg hidden :
  create_room rnd room_id player_names st = (st', Created msg hidden) →
  ∃ rid names r,
    room_id = Some rid ∧ player_names = Some names ∧
    rooms st' !! rid = Some r ∧
    dict_keys (players r) = names ∧
    hidden_role_players r = [hidden] ∧
    hidden ∈ names ∧
    bhadwa r = hidden ∧
    (∃ ps, dict_get hidden (players r) = Some ps ∧ is_bhadwa ps = true) ∧
    (∀ name ps, dict_get name (players r) = Some ps → name ≠ hidden →
                is_bhadwa ps = false).
Proof.
  intros (rid & names & -> & -> & Hrid & Hlen & Hnd & Hch & ->)%create_room_Created_inv.
  apply choice_elem in Hch as Hin.
  exists rid, names, (fresh_room hidden names). split_and!; try done.
  - simpl. apply lookup_insert_eq.
  - by apply new_players_keys.
  - by apply hidden_role_players_new.
  - eexists. split; [by apply new_players_get|]. simpl. by apply bool_decide_eq_true.
  - simpl. intros name ps Hget Hne.
    assert (name ∈ names) as Hname.
    { rewrite <-(new_players_keys hidden names) by done.
      apply dict_get_is_Some. by eexists. }
    rewrite new_players_get in Hget by done. injection Hget as <-.
    simpl. by apply bool_decide_eq_false.
Qed.

Lemma create_room_one_hidden_role_witness :
  ∃ st' r,
    create_room 4 (Some "den") (Some ["asha"; "bala"; "chitra"]) init
    = (st', Created "Room den created with players." "bala") ∧
    rooms st' !! "den" = Some r ∧
    hidden_role_players r = ["bala"] ∧ bhadwa r = "bala".
Proof.
  eexists _. 
  destruct (create_room_one_hidden_role 4 (Some "den")
              (Some ["asha"; "bala"; "chitra"]) init _ _ _ eq_refl)
    as (rid & names & r & [= <-] & [= <-] & Hr & _ & Hhid & _ & Hb & _).
  exists r. split_and!; done.
Defined.

(** C8: [create_room] fails, leaving the server unchanged, for every
    player list of fewer than 2 or more than 20 names, whatever the room
    id.  With a room id given, a missing or empty list is answered with
    InvalidInput, a non-empty list of fewer than 2 or more than 20 names
    with InvalidPlayerCount, and a list of 2 to 20 names with a repeated
    name with DuplicatePlayerName; every list of 2 to 20 pairwise distinct
    names is accepted.  So lists of lengths 0, 1 and 21 fail and lists of 2
    and of 20 distinct names succeed. *)
Theorem create_room_player_count rnd st :
  (∀ room_id names, length names < 2 ∨ 20 < length names →
     create_room rnd room_id (Some names) st = (st, InvalidInput) ∨
     create_room rnd room_id (Some names) st = (st, InvalidPlayerCount)) ∧
  (∀ rid, rid ≠ "" →
     create_room rnd (Some rid) None st = (st, InvalidInput) ∧
     (∀ names, length names = 0 →
        create_room rnd (Some rid) (Some names) st = (st, InvalidInput)) ∧
     (∀ names, length names = 1 ∨ 20 < length names →
        create_room rnd (Some rid) (Some names) st = (st, InvalidPlayerCount)) ∧
     (∀ names, 2 ≤ length names ≤ 20 → ¬ NoDup names →
        create_room rnd (Some rid) (Some names) st = (st, DuplicatePlayerName)) ∧
     (∀ names, 2 ≤ length names ≤ 20 → NoDup names →
        ∃ hidden st',
          create_room rnd (Some rid) (Some names) st =
          (st', Created ("Room " +:+ rid +:+ " created with players.") hidden) ∧
          rooms st' !! rid = Some (fresh_room hidden names))).
Proof.
  split.
  { intros room_id names Hlen. unfold create_room.
    destruct (falsy_str room_id || falsy_list (Some names)); [by left|].
    destruct room_id as [rid|]; [|by left]. right.
    destruct Hlen as [Hlen|Hlen].
    - by rewrite (bool_decide_eq_true_2 (length _ < 2)) by lia.
    - rewrite (bool_decide_eq_true_2 (20 < length _)) by lia.
      by rewrite orb_true_r. }
  intros rid Hrid. unfold create_room at 1 2 3 4. unfold falsy_str.
  rewrite bool_decide_eq_false_2 by done. split_and!.
  - done.
  - intros names Hlen. by destruct names.
  - intros [|n0 names] Hlen; [simpl in Hlen; lia|]. cbn [falsy_list orb].
    destruct Hlen as [Hlen|Hlen].
    + by rewrite (bool_decide_eq_true_2 (length _ < 2)) by lia.
    + rewrite (bool_decide_eq_true_2 (20 < length _)) by lia.
      by rewrite orb_true_r.
  - intros [|n0 names] Hlen Hdup; [simpl in Hlen; lia|]. cbn [falsy_list orb].
    rewrite (bool_decide_eq_false_2 (length _ < 2)) by lia.
    rewrite (bool_decide_eq_false_2 (20 < length _)) by lia. cbn [orb].
    rewrite bool_decide_eq_false_2; [done|]. by rewrite distinct_count_NoDup.
  - intros names Hlen Hnd.
    destruct (create_room_ok rnd rid names st Hrid Hlen Hnd) as (hidden & _ & ->).
    eexists _, _. split; [done|]. simpl. apply lookup_insert_eq.
Qed.

Lemma create_room_player_count_witness :
  "den" ≠ "" ∧
  create_room 7 (Some "den") (Some []) init = (init, InvalidInput) ∧
  create_room 7 (Some "den") (Some ["asha"]) init = (init, InvalidPlayerCount) ∧
  create_room 7 (Some "den") (Some ("p21" :: twenty_names)) init
  = (init, InvalidPlayerCount) ∧
  create_room 7 (Some "den") (Some ["asha"; "asha"]) init
  = (init, DuplicatePlayerName) ∧
  (∃ hidden st',
     create_room 7 (Some "den") (Some ["asha"; "bala"]) init =
     (st', Created "Room den created with players." hidden)
     ∧ rooms st' !! "den" = Some (fresh_room hidden ["asha"; "bala"])) ∧
  (∃ hidden st',
     create_room 7 (Some "den") (Some twenty_names) init =
     (st', Created "Room den created with players." hidden)
     ∧ rooms st' !! "den" = Some (fresh_room hidden twenty_names)).
Proof.
  assert ("den" ≠ "") as Hrid by done.
  destruct (create_room_player_count 7 init) as [_ Hden].
  destruct (Hden "den" Hrid) as (_ & Hempty & Hcount & Hdup & Hok).
  split_and!.
  - exact Hrid.
  - apply Hempty. reflexivity.
  - apply Hcount. left. reflexivity.
  - apply Hcount. right. simpl. lia.
  - apply Hdup; [simpl; lia|]. intros Hnd.
    apply NoDup_cons_1_1 in Hnd. apply Hnd, list_elem_of_here.
  - apply (Hok ["asha"; "bala"]); [simpl; lia|].
    apply (bool_decide_unpack _). vm_compute. exact I.
  - apply (Hok twenty_names); [simpl; lia|].
    apply (bool_decide_unpack _). vm_compute. exact I.
Defined.

(** ** Closing the vote *)

Lemma elem_of_candidates p max_votes (vs : dict nat) :
  p ∈ candidates max_votes vs ↔ (p, max_votes) ∈ dict_items vs.
Proof.
  unfold candidates. rewrite list_elem_of_fmap. split.
  - intros ([p' v] & -> & [Hv Hin]%list_elem_of_filter). simpl in Hv. by subst v.
  - intros Hin. exists (p, max_votes). split; [done|]. by apply list_elem_of_filter.
Qed.

Lemma candidates_get p max_votes (vs : dict nat) :
  dict_wf vs → p ∈ candidates max_votes vs ↔ dict_get p vs = Some max_votes.
Proof.
  intros Hwf. rewrite elem_of_candidates. split.
  - by apply dict_elem_get.
  - apply dict_get_Some_elem.
Qed.

(** The maximum is reached by some entry, so [random.choice] never sees an
    empty list. *)
Lemma candidates_nonempty (vs : dict nat) :
  vs ≠ [] →
  ∃ max_votes, py_max (dict_values vs) = Some max_votes ∧
               (∀ p v, (p, v) ∈ dict_items vs → v ≤ max_votes) ∧
               candidates max_votes vs ≠ [].
Proof.
  intros Hne. destruct (py_max_spec (dict_values vs)) as (m & Hm & Hin & Hub).
  { unfold dict_values. by destruct vs. }
  exists m. split_and!; [done| |].
  - intros p v Hpv. apply Hub. unfold dict_values.
    apply list_elem_of_fmap. by exists (p, v).
  - unfold dict_values in Hin. apply list_elem_of_fmap in Hin as ([p v] & -> & Hpv).
    simpl. intros Hnil. apply elem_of_candidates in Hpv. rewrite Hnil in Hpv.
    by apply elem_of_nil in Hpv.
Qed.

Lemma end_voting_no_votes rnd rid st r :
  rooms st !! rid = Some r → game_active r = true → votes r = [] →
  end_voting rnd rid st = store rid (closed_with "No votes cast. No elimination." r) st.
Proof.
  intros Hr Hact Hvs. unfold end_voting. rewrite Hr, Hact. simpl. by rewrite Hvs.
Qed.

Lemma end_voting_some_votes rnd rid st r :
  rooms st !! rid = Some r → game_active r = true → votes r ≠ [] →
  ∃ max_votes eliminated,
    py_max (dict_values (votes r)) = Some max_votes ∧
    choice rnd (candidates max_votes (votes r)) = Some eliminated ∧
    end_voting rnd rid st =
    store rid (closed_with (result_text eliminated (bhadwa r)) r) st.
Proof.
  intros Hr Hact Hvs.
  destruct (candidates_nonempty (votes r) Hvs) as (m & Hm & _ & Hcand).
  destruct (choice_is_Some rnd _ Hcand) as [e He].
  exists m, e. split_and!; [done..|].
  unfold end_voting. rewrite Hr, Hact. simpl.
  apply dict_falsy_false in Hvs. by rewrite Hvs, Hm, He.
Qed.

(** C2: closing an open room whose tally is not empty eliminates a player
    whose count is the maximum count: the candidates are exactly the players
    holding the maximum, the eliminated one is among them, each of them is
    eliminated by some draw, and a player with a strictly smaller count is
    never the eliminated one. *)
Theorem end_voting_eliminates_top rnd rid st r :
  rooms st !! rid = Some r → game_active r = true →
  votes r ≠ [] → dict_wf (votes r) →
  ∃ max_votes eliminated,
    py_max (dict_values (votes r)) = Some max_votes ∧
    (∀ p v, dict_get p (votes r) = Some v → v ≤ max_votes) ∧
    (∀ p, p ∈ candidates max_votes (votes r) ↔
          dict_get p (votes r) = Some max_votes) ∧
    choice rnd (candidates max_votes (votes r)) = Some eliminated ∧
    rooms (end_voting rnd rid st) !! rid =
      Some (closed_with (result_text eliminated (bhadwa r)) r) ∧
    dict_get eliminated (votes r) = Some max_votes ∧
    (∀ p v, dict_get p (votes r) = Some v → v < max_votes → eliminated ≠ p) ∧
    (∀ p, dict_get p (votes r) = Some max_votes →
          ∃ rnd', choice rnd' (candidates max_votes (votes r)) = Some p).
Proof.
  intros Hr Hact Hvs Hwf.
  destruct (end_voting_some_votes rnd rid st r Hr Hact Hvs) as (m & e & Hm & He & Hend).
  destruct (candidates_nonempty (votes r) Hvs) as (m' & Hm' & Hub & _).
  assert (m' = m) as -> by congruence.
  assert (dict_get e (votes r) = Some m) as Hget.
  { apply candidates_get; [done|]. by eapply choice_elem. }
  exists m, e. split_and!; try done.
  - intros p v Hp. eapply Hub. by apply dict_get_Some_elem.
  - intros p. by apply candidates_get.
  - rewrite Hend. simpl. apply lookup_insert_eq.
  - intros p v Hp Hlt <-. rewrite Hget in Hp. injection Hp as <-. lia.
  - intros p Hp. apply choice_covers. by apply candidates_get.
Qed.

Lemma end_voting_eliminates_top_witness :
  ∃ eliminated,
    rooms (end_voting 5 "den" tied_state) !! "den" =
      Some (closed_with (result_text eliminated "B") tied_room) ∧
    dict_get eliminated (votes tied_room) = Some 3 ∧
    eliminated ≠ "C".
Proof.
  destruct (end_voting_eliminates_top 5 "den" tied_state tied_room)
    as (m & e & Hm & _ & _ & _ & Hend & He & Hlow & _).
  - reflexivity.
  - reflexivity.
  - discriminate.
  - apply (bool_decide_unpack _). vm_compute. exact I.
  - injection Hm as <-. exists e. split_and!; [exact Hend | exact He |].
    apply (Hlow "C" 1); [reflexivity | simpl; lia].
Defined.

(** On that tally every draw eliminates A or B. *)
Example end_voting_tied rnd :
  rooms (end_voting rnd "den" tied_state) !! "den" =
    Some (closed_with "A was eliminated. Bhadwa wins." tied_room)
  ∨ rooms (end_voting rnd "den" tied_state) !! "den" =
    Some (closed_with "Bhadwa B was eliminated. Innocents win!" tied_room).
Proof.
  destruct (end_voting_some_votes rnd "den" tied_state tied_room)
    as (m & e & [= <-] & He & ->); [done..|].
  change (candidates _ _) with ["A"; "B"] in He. unfold choice in He.
  assert (rnd mod 2 < 2) as Hlt by (apply Nat.mod_upper_bound; lia).
  simpl length in He. destruct (rnd mod 2) as [|[|n]]; [| |lia].
  - injection He as <-. left. apply lookup_insert_eq.
  - injection He as <-. right. apply lookup_insert_eq.
Qed.

(** C3: closing an open room always ends with the room closed and nothing
    but [game_active] and [result] changed; the result is the no-votes text
    when the tally is empty, and otherwise it names the drawn top candidate:
    the innocents-win text when that player is the hidden-role player, the
    Bhadwa-wins text when not. *)
Theorem end_voting_result rnd rid st r :
  rooms st !! rid = Some r → game_active r = true →
  ∃ r',
    rooms (end_voting rnd rid st) !! rid = Some r' ∧
    game_active r' = false ∧
    players r' = players r ∧ votes r' = votes r ∧ bhadwa r' = bhadwa r ∧
    (votes r = [] → result r' = Some "No votes cast. No elimination.") ∧
    (votes r ≠ [] →
     ∃ max_votes eliminated,
       py_max (dict_values (votes r)) = Some max_votes ∧
       choice rnd (candidates max_votes (votes r)) = Some eliminated ∧
       (eliminated = bhadwa r →
        result r' =
          Some ("Bhadwa " +:+ eliminated +:+ " was eliminated. Innocents win!")) ∧
       (eliminated ≠ bhadwa r →
        result r' = Some (eliminated +:+ " was eliminated. Bhadwa wins."))).
Proof.
  intros Hr Hact. destruct (decide (votes r = [])) as [Hvs|Hvs].
  - rewrite (end_voting_no_votes rnd rid st r) by done.
    eexists. split; [apply lookup_insert_eq|]. split_and!; done.
  - destruct (end_voting_some_votes rnd rid st r Hr Hact Hvs)
      as (m & e & Hm & He & ->).
    eexists. split; [apply lookup_insert_eq|]. split_and!; try done.
    intros _. exists m, e. split_and!; try done; intros Heq; simpl;
      unfold result_text.
    + by rewrite decide_True.
    + by rewrite decide_False.
Qed.

Lemma end_voting_result_witness :
  ∃ r',
    rooms (end_voting 1 "den" tied_state) !! "den" = Some r' ∧
    game_active r' = false ∧
    result r' = Some "Bhadwa B was eliminated. Innocents win!".
Proof.
  destruct (end_voting_result 1 "den" tied_state tied_room)
    as (r' & Hr' & Hact & _ & _ & _ & _ & Hres); [reflexivity..|].
  exists r'. split_and!; [exact Hr' | exact Hact |].
  destruct Hres as (m & e & [= <-] & [= <-] & Hhid & _); [discriminate|].
  apply Hhid. reflexivity.
Defined.

(** ** Casting a vote *)

Lemma vote_lookup rid st r :
  rooms st !! rid = Some r →
  Some rid ≫= (λ rid, (rid,.) <$> rooms st !! rid) = Some (rid, r).
Proof. intros Hr. simpl. by rewrite Hr. Qed.

Lemma vote_ok rid voter target st r ps :
  rooms st !! rid = Some r → game_active r = true →
  dict_get voter (players r) = Some ps → voted_today ps = false →
  target ∈ dict_keys (players r) →
  vote (Some rid) (Some voter) (Some target) st =
  (store rid (after_vote voter target ps r) st,
   Message (voter +:+ " voted for " +:+ target)).
Proof.
  intros Hr Hact Hps Hnot Htarget. unfold vote.
  rewrite (vote_lookup _ _ _ Hr), Hact. cbn [negb].
  assert (dict_mem (Some voter) (players r) = true) as ->.
  { apply dict_mem_Some, dict_get_is_Some. by eexists. }
  assert (dict_mem (Some target) (players r) = true) as -> by by apply dict_mem_Some.
  cbn [negb]. by rewrite Hps, Hnot.
Qed.

Lemma vote_Message_inv room_id voter vote_for st st' msg :
  vote room_id voter vote_for st = (st', Message msg) →
  ∃ rid v t r ps,
    room_id = Some rid ∧ voter = Some v ∧ vote_for = Some t ∧
    rooms st !! rid = Some r ∧ game_active r = true ∧
    dict_get v (players r) = Some ps ∧ voted_today ps = false ∧
    t ∈ dict_keys (players r) ∧
    st' = store rid (after_vote v t ps r) st ∧
    msg = v +:+ " voted for " +:+ t.
Proof.
  unfold vote. destruct room_id as [rid|]; [|done]. simpl.
  destruct (rooms st !! rid) as [r|] eqn:Hr; [|done]. simpl.
  destruct (game_active r) eqn:Hact; [|done]. cbn [negb].
  destruct (dict_mem voter (players r)) eqn:Hv; [|done]. cbn [negb].
  destruct (dict_mem vote_for (players r)) eqn:Ht; [|done]. cbn [negb].
  apply dict_mem_true_inv in Hv as (v & -> & Hv).
  apply dict_mem_true_inv in Ht as (t & -> & Ht).
  destruct (dict_get v (players r)) as [ps|] eqn:Hps; [|done].
  destruct (voted_today ps) eqn:Hnot; [done|].
  intros [= <- <-]. by exists rid, v, t, r, ps.
Qed.

(** A vote either succeeds or leaves the server as it was. *)
Lemma vote_cases room_id voter vote_for st :
  (vote room_id voter vote_for st).1 = st ∨
  ∃ msg, (vote room_id voter vote_for st).2 = Message msg.
Proof.
  unfold vote.
  destruct (room_id ≫= _) as [[rid r]|]; [|by left].
  destruct (negb (game_active r)); [by left|].
  destruct (negb (dict_mem voter _)); [by left|].
  destruct (negb (dict_mem vote_for _)); [by left|].
  destruct voter as [v|], vote_for as [t|]; try by left.
  destruct (dict_get v _) as [ps|]; [|by left].
  destruct (voted_today ps); [by left|]. right. by eexists.
Qed.

Lemma vote_closed rid voter vote_for st r :
  rooms st !! rid = Some r → game_active r = false →
  vote (Some rid) voter vote_for st = (st, VotingClosed_vote (result r)).
Proof.
  intros Hr Hact. unfold vote. by rewrite (vote_lookup _ _ _ Hr), Hact.
Qed.

(** A voter whose flag is set is turned away, once the target is checked. *)
Lemma vote_again rid voter vote_for st r ps :
  rooms st !! rid = Some r → game_active r = true →
  dict_get voter (players r) = Some ps → voted_today ps = true →
  vote (Some rid) (Some voter) vote_for st =
  (st, if dict_mem vote_for (players r) then AlreadyVotedToday else UnknownTarget).
Proof.
  intros Hr Hact Hps Hvoted. unfold vote.
  rewrite (vote_lookup _ _ _ Hr), Hact. cbn [negb].
  assert (dict_mem (Some voter) (players r) = true) as ->.
  { apply dict_mem_Some, dict_get_is_Some. by eexists. }
  cbn [negb]. destruct (dict_mem vote_for (players r)) eqn:Ht; [|done].
  cbn [negb]. apply dict_mem_true_inv in Ht as (t & -> & _).
  by rewrite Hps, Hvoted.
Qed.

Lemma after_vote_voter voter target ps r :
  dict_get voter (players (after_vote voter target ps r)) =
  Some (set_voted_today true ps).
Proof. simpl. apply dict_get_set_eq. Qed.

Lemma after_vote_count voter target ps r p :
  vote_count p (after_vote voter target ps r) =
  if decide (target = p) then vote_count p r + 1 else vote_count p r.
Proof.
  unfold vote_count. simpl. rewrite dict_get_set.
  by destruct (decide (target = p)) as [->|].
Qed.

(** Distinct players who have not voted today all get their vote in; each
    vote adds one to the target's count and flags its voter, and the
    entries of the players who did not vote stay as they were. *)
Lemma cast_votes_ok rid target voters : ∀ st r,
  rooms st !! rid = Some r → game_active r = true →
  NoDup voters →
  (∀ v, v ∈ voters →
        ∃ ps, dict_get v (players r) = Some ps ∧ voted_today ps = false) →
  target ∈ dict_keys (players r) →
  ∃ st' r',
    cast_votes rid target voters st =
      (st', (λ v, Message (v +:+ " voted for " +:+ target)) <$> voters) ∧
    rooms st' !! rid = Some r' ∧ game_active r' = true ∧
    vote_count target r' = vote_count target r + length voters ∧
    (∀ v, v ∈ voters →
          ∃ ps', dict_get v (players r') = Some ps' ∧ voted_today ps' = true) ∧
    (∀ p, p ∉ voters → dict_get p (players r') = dict_get p (players r)).
Proof.
  induction voters as [|v voters IH]; intros st r Hr Hact Hnd Hfree Htarget.
  - exists st, r. simpl. split_and!; [done | done | done | lia | | done].
    by intros v ?%elem_of_nil.
  - apply NoDup_cons in Hnd as [Hv Hnd].
    destruct (Hfree v) as (ps & Hps & Hnot); [apply list_elem_of_here|].
    destruct (IH (store rid (after_vote v target ps r) st) (after_vote v target ps r))
      as (st' & r' & Hcast & Hr' & Hact' & Hcount & Hflags & Hframe); try done.
    + simpl. apply lookup_insert_eq.
    + intros v' Hv'. simpl. rewrite dict_get_set_ne by (by intros ->).
      apply Hfree. by apply list_elem_of_further.
    + simpl. apply elem_of_dict_keys_set. by right.
    + exists st', r'. cbn [cast_votes].
      rewrite (vote_ok rid v target st r ps) by done. rewrite Hcast.
      split_and!; [done | done | done | | |].
      * rewrite Hcount, after_vote_count, decide_True by done. simpl. lia.
      * intros v' [->|Hv']%elem_of_cons; [|by apply Hflags].
        exists (set_voted_today true ps). split; [|done].
        rewrite (Hframe v Hv). apply after_vote_voter.
      * intros p [Hne Hp]%not_elem_of_cons. rewrite (Hframe p Hp).
        simpl. by apply dict_get_set_ne.
Qed.

(** C4: a successful vote sets the voter's [voted_today] flag to true,
    leaving the voter's [is_bhadwa] flag alone, and adds one to the
    target's count, creating the entry at 1 when the target had none; so,
    from an empty tally in an open room, the votes of [k] distinct players
    who have not voted today, all for the same player [T], all succeed,
    leave every one of these voters flagged and leave [votes[T] == k]. *)
Theorem vote_tally_exact :
  (∀ room_id voter vote_for st st' msg,
     vote room_id voter vote_for st = (st', Message msg) →
     ∃ rid v t r ps r' ps',
       room_id = Some rid ∧ voter = Some v ∧ vote_for = Some t ∧
       rooms st !! rid = Some r ∧ game_active r = true ∧
       dict_get v (players r) = Some ps ∧ voted_today ps = false ∧
       rooms st' !! rid = Some r' ∧
       dict_get v (players r') = Some ps' ∧
       voted_today ps' = true ∧ is_bhadwa ps' = is_bhadwa ps ∧
       dict_get t (votes r') = Some (vote_count t r + 1) ∧
       (dict_get t (votes r) = None → dict_get t (votes r') = Some 1))
  ∧
  (∀ rid target voters st r,
     rooms st !! rid = Some r → game_active r = true → votes r = [] →
     NoDup voters → voters ≠ [] →
     (∀ v, v ∈ voters →
           ∃ ps, dict_get v (players r) = Some ps ∧ voted_today ps = false) →
     target ∈ dict_keys (players r) →
     ∃ st' r',
       cast_votes rid target voters st =
         (st', (λ v, Message (v +:+ " voted for " +:+ target)) <$> voters) ∧
       rooms st' !! rid = Some r' ∧
       (∀ v, v ∈ voters →
             ∃ ps', dict_get v (players r') = Some ps' ∧ voted_today ps' = true) ∧
       dict_get target (votes r') = Some (length voters)).
Proof.
  split.
  - intros room_id voter vote_for st st' msg Hvote.
    apply vote_Message_inv in Hvote
      as (rid & v & t & r & ps & -> & -> & -> & Hr & Hact & Hps & Hnot & _ & -> & _).
    exists rid, v, t, r, ps, (after_vote v t ps r), (set_voted_today true ps).
    split_and!; try done.
    + simpl. apply lookup_insert_eq.
    + apply after_vote_voter.
    + simpl. apply dict_get_set_eq.
    + intros Hnone. simpl. by rewrite dict_get_set_eq, Hnone.
  - intros rid target voters st r Hr Hact Hvs Hnd Hne Hfree Htarget.
    destruct (cast_votes_ok rid target voters st r)
      as (st' & r' & Hcast & Hr' & _ & Hcount & Hflags & _); try done.
    exists st', r'. split_and!; [done..|].
    unfold vote_count in Hcount. rewrite Hvs in Hcount. simpl in Hcount.
    destruct (dict_get target (votes r')) as [n|]; simpl in Hcount.
    + by rewrite Hcount.
    + destruct voters; [done | simpl in Hcount; lia].
Qed.

Lemma vote_tally_exact_witness :
  (∃ st' r',
     vote (Some "den") (Some "asha") (Some "chitra") day_state
     = (st', Message "asha voted for chitra") ∧
     rooms st' !! "den" = Some r' ∧
     dict_get "asha" (players day_room) = Some (PlayerState false false) ∧
     dict_get "asha" (players r') = Some (PlayerState false true) ∧
     dict_get "chitra" (votes r') = Some 1) ∧
  (∃ st' r',
     cast_votes "den" "chitra" ["asha"; "bala"; "chitra"] day_state
     = (st', [Message "asha voted for chitra"; Message "bala voted for chitra";
              Message "chitra voted for chitra"]) ∧
     rooms st' !! "den" = Some r' ∧
     (∃ ps', dict_get "bala" (players r') = Some ps' ∧ voted_today ps' = true) ∧
     dict_get "chitra" (votes r') = Some 3).
Proof.
  destruct vote_tally_exact as [Hone Hmany]. split.
  - destruct (Hone (Some "den") (Some "asha") (Some "chitra") day_state _ _ eq_refl)
      as (rid & v & t & r & ps & r' & ps' & [= <-] & [= <-] & [= <-] & [= <-] & _
          & [= <-] & _ & Hr' & Hps' & Hvoted & Hhid & _ & Hnew).
    eexists _, r'. split_and!; [reflexivity | exact Hr' | reflexivity | |].
    + rewrite Hps'. destruct ps' as [hid voted]. simpl in Hvoted, Hhid.
      by rewrite Hvoted, Hhid.
    + apply Hnew. reflexivity.
  - destruct (Hmany "den" "chitra" ["asha"; "bala"; "chitra"] day_state day_room)
      as (st' & r' & Hcast & Hr' & Hflags & Hcount).
    + reflexivity.
    + reflexivity.
    + reflexivity.
    + apply (bool_decide_unpack _). vm_compute. exact I.
    + discriminate.
    + intros v Hv. exists (PlayerState (bool_decide (v = "bala")) false).
      split; [|reflexivity].
      apply elem_of_cons in Hv as [->|Hv]; [reflexivity|].
      apply elem_of_cons in Hv as [->|Hv]; [reflexivity|].
      apply elem_of_cons in Hv as [->|Hv]; [reflexivity|].
      by apply elem_of_nil in Hv.
    + apply (bool_decide_unpack _). vm_compute. exact I.
    + exists st', r'. split_and!; [exact Hcast | exact Hr' | | exact Hcount].
      apply Hflags. apply (bool_decide_unpack _). vm_compute. exact I.
Defined.

(** C9: a player may vote for themselves: in an open room a player who has
    not voted today votes for their own name, the vote is accepted, their
    flag is set and their own count goes up by one. *)
Theorem vote_for_self rid p st r ps :
  rooms st !! rid = Some r → game_active r = true →
  dict_get p (players r) = Some ps → voted_today ps = false →
  ∃ st' r',
    vote (Some rid) (Some p) (Some p) st = (st', Message (p +:+ " voted for " +:+ p)) ∧
    rooms st' !! rid = Some r' ∧
    dict_get p (players r') = Some (set_voted_today true ps) ∧
    dict_get p (votes r') = Some (vote_count p r + 1).
Proof.
  intros Hr Hact Hps Hnot.
  exists (store rid (after_vote p p ps r) st), (after_vote p p ps r). split_and!.
  - apply vote_ok; try done. apply dict_get_is_Some. by eexists.
  - simpl. apply lookup_insert_eq.
  - apply after_vote_voter.
  - simpl. apply dict_get_set_eq.
Qed.

Lemma vote_for_self_witness :
  ∃ st' r',
    vote (Some "den") (Some "asha") (Some "asha") day_state
    = (st', Message "asha voted for asha") ∧
    rooms st' !! "den" = Some r' ∧
    dict_get "asha" (players r') = Some (PlayerState false true) ∧
    dict_get "asha" (votes r') = Some 1.
Proof.
  apply (vote_for_self "den" "asha" day_state day_room (PlayerState false false));
    reflexivity.
Defined.

(** ** A new day *)

Lemma reset_votes_ok rid st r :
  rooms st !! rid = Some r → game_active r = true →
  reset_votes (Some rid) st =
  (store rid (new_day r) st, Message "Votes reset, new day started").
Proof.
  intros Hr Hact. unfold reset_votes. by rewrite (vote_lookup _ _ _ Hr), Hact.
Qed.

Lemma reset_votes_closed rid st r :
  rooms st !! rid = Some r → game_active r = false →
  reset_votes (Some rid) st = (st, VotingClosed_reset (result r)).
Proof.
  intros Hr Hact. unfold reset_votes. by rewrite (vote_lookup _ _ _ Hr), Hact.
Qed.

Lemma reset_votes_cases room_id st :
  reset_votes room_id st = (st, RoomNotFound) ∨
  ∃ rid r, room_id = Some rid ∧ rooms st !! rid = Some r ∧
    ((game_active r = false ∧
      reset_votes room_id st = (st, VotingClosed_reset (result r))) ∨
     (game_active r = true ∧
      reset_votes room_id st =
      (store rid (new_day r) st, Message "Votes reset, new day started"))).
Proof.
  destruct room_id as [rid|]; [|by left].
  destruct (rooms st !! rid) as [r|] eqn:Hr.
  - right. exists rid, r. split_and!; [done..|].
    destruct (game_active r) eqn:Hact.
    + right. split; [done|]. by apply reset_votes_ok.
    + left. split; [done|]. by apply reset_votes_closed.
  - left. unfold reset_votes. simpl. by rewrite Hr.
Qed.

Lemma new_day_get name r :
  dict_get name (players (new_day r)) =
  set_voted_today false <$> dict_get name (players r).
Proof. simpl. apply dict_get_fmap. Qed.

(** C6: a successful reset clears every player's [voted_today] flag and
    changes nothing else: the same players in the same order with the same
    [is_bhadwa] flags, the same [votes], [bhadwa], [game_active] and
    [result], the other rooms and the pending timers. *)
Theorem reset_votes_frame room_id st st' msg :
  reset_votes room_id st = (st', Message msg) →
  ∃ rid r r',
    room_id = Some rid ∧ rooms st !! rid = Some r ∧ game_active r = true ∧
    rooms st' !! rid = Some r' ∧
    (∀ name ps', dict_get name (players r') = Some ps' → voted_today ps' = false) ∧
    dict_keys (players r') = dict_keys (players r) ∧
    (∀ name, is_bhadwa <$> dict_get name (players r') =
             is_bhadwa <$> dict_get name (players r)) ∧
    votes r' = votes r ∧ bhadwa r' = bhadwa r ∧
    game_active r' = game_active r ∧ result r' = result r ∧
    (∀ rid', rid' ≠ rid → rooms st' !! rid' = rooms st !! rid') ∧
    timers st' = timers st.
Proof.
  intros Hreset.
  destruct (reset_votes_cases room_id st)
    as [Hnf|(rid & r & -> & Hr & [[Hact Hcl]|[Hact Hok]])].
  { by rewrite Hnf in Hreset. }
  { by rewrite Hcl in Hreset. }
  rewrite Hok in Hreset. injection Hreset as <- _.
  exists rid, r, (new_day r). split_and!; try done.
  - simpl. apply lookup_insert_eq.
  - intros name ps'. rewrite new_day_get.
    destruct (dict_get name (players r)); [|done]. by intros [= <-].
  - simpl. apply dict_keys_fmap.
  - intros name. rewrite new_day_get. by destruct (dict_get name (players r)).
  - intros rid' Hne. simpl. by apply lookup_insert_ne.
Qed.

Lemma reset_votes_frame_witness :
  ∃ st' r',
    reset_votes (Some "den") voted_state = (st', Message "Votes reset, new day started") ∧
    rooms st' !! "den" = Some r' ∧
    dict_get "asha" (players voted_room) = Some (PlayerState false true) ∧
    dict_get "asha" (players r') = Some (PlayerState false false) ∧
    votes r' = [("chitra", 1)].
Proof.
  destruct (reset_votes_frame (Some "den") voted_state _ _ eq_refl)
    as (rid & r & r' & [= <-] & [= <-] & _ & Hr' & Hflags & _ & Hhid & Hvotes & _).
  eexists _, r'. split_and!; [reflexivity | exact Hr' | reflexivity | | exact Hvotes].
  specialize (Hhid "asha"). specialize (Hflags "asha").
  destruct (dict_get "asha" (players r')) as [[hid voted]|]; [|discriminate Hhid].
  injection Hhid as ->. pose proof (Hflags _ eq_refl) as Hvoted.
  simpl in Hvoted. by rewrite Hvoted.
Defined.

(** ** A closed room *)

(** C7: once a room is closed, every vote and every reset on it is turned
    away with the voting-closed response carrying the stored result, and
    the server state is left exactly as it was. *)
Theorem closed_room_rejects rid st r :
  rooms st !! rid = Some r → game_active r = false →
  (∀ voter vote_for,
     vote (Some rid) voter vote_for st = (st, VotingClosed_vote (result r))) ∧
  reset_votes (Some rid) st = (st, VotingClosed_reset (result r)).
Proof.
  intros Hr Hact. split.
  - intros voter vote_for. by apply vote_closed.
  - by apply reset_votes_closed.
Qed.

Lemma closed_room_rejects_witness :
  end_voting 0 "den" voted_state = closed_state ∧
  vote (Some "den") (Some "bala") (Some "asha") closed_state
  = (closed_state, Ended "Voting period has ended"
                     (Some "chitra was eliminated. Bhadwa wins.")) ∧
  reset_votes (Some "den") closed_state
  = (closed_state, Ended "Game has ended" (Some "chitra was eliminated. Bhadwa wins.")).
Proof.
  destruct (closed_room_rejects "den" closed_state closed_room eq_refl eq_refl)
    as [Hvote Hreset].
  split_and!; [reflexivity | apply Hvote | exact Hreset].
Defined.

(** ** What one event does to one room *)

Lemma create_room_cases rnd room_id player_names st :
  (create_room rnd room_id player_names st).1 = st ∨
  ∃ msg hidden, create_room rnd room_id player_names st
                = ((create_room rnd room_id player_names st).1, Created msg hidden).
Proof.
  unfold create_room.
  destruct (falsy_str room_id || falsy_list player_names); [by left|].
  destruct room_id as [rid|], player_names as [names|]; try by left.
  destruct (_ || _); [by left|]. destruct (negb _); [by left|].
  destruct (choice rnd names); [|by left]. right. by eexists _, _.
Qed.

Lemma end_voting_cases rnd rid st :
  end_voting rnd rid st = st ∨
  ∃ r r', rooms st !! rid = Some r ∧ game_active r = true ∧
          end_voting rnd rid st = store rid r' st ∧
          game_active r' = false ∧ players r' = players r ∧
          votes r' = votes r ∧ bhadwa r' = bhadwa r.
Proof.
  unfold end_voting. destruct (rooms st !! rid) as [r|] eqn:Hr; [|by left].
  destruct (game_active r) eqn:Hact; [|by left]. cbn [negb]. right. exists r.
  destruct (dict_falsy _); [by eexists|].
  destruct (py_max _); [|by eexists].
  destruct (choice _ _); by eexists.
Qed.

Lemma status_state room_id st : (status room_id st).1 = st.
Proof. unfold status. by destruct (room_id ≫= _). Qed.

(** Every event leaves a room alone or changes it in one of four ways. *)
Lemma handle_effect ev st rid : room_effect st rid ev (rooms (handle ev st).1 !! rid).
Proof.
  destruct ev as [rnd room_id names|room_id voter vote_for|room_id|room_id|rnd rid0];
    simpl.
  - destruct (create_room_cases rnd room_id names st) as [->|(msg & h & Hcr)];
      [constructor|].
    apply create_room_Created_inv in Hcr
      as (rid0 & l & -> & -> & _ & _ & Hnd & Hch%choice_elem & ->).
    simpl. rewrite lookup_insert. destruct (decide (rid0 = rid)) as [->|_].
    + by constructor.
    + constructor.
  - destruct (vote_cases room_id voter vote_for st) as [->|[msg Hmsg]]; [constructor|].
    destruct (vote room_id voter vote_for st) as [st' resp] eqn:Hvote.
    simpl in Hmsg. subst resp.
    apply vote_Message_inv in Hvote
      as (rid0 & v & t & r & ps & -> & -> & -> & Hr & Hact & Hps & Hnot & Ht & -> & _).
    simpl. rewrite lookup_insert. destruct (decide (rid0 = rid)) as [->|_].
    + by constructor.
    + constructor.
  - destruct (reset_votes_cases room_id st)
      as [->|(rid0 & r & -> & Hr & [[_ ->]|[Hact ->]])]; [constructor..|].
    simpl. rewrite lookup_insert. destruct (decide (rid0 = rid)) as [->|_].
    + by constructor.
    + constructor.
  - rewrite status_state. constructor.
  - destruct (bool_decide (rid0 ∈ timers st)); [|constructor]. simpl.
    set (st0 := {| rooms := rooms st; timers := wake rid0 (timers st) |}).
    destruct (end_voting_cases rnd rid0 st0)
      as [->|(r & r' & Hr & Hact & -> & Hact' & Hps & Hvs & Hb)];
      [exact (eff_none st rid _)|].
    simpl in Hr. simpl. rewrite lookup_insert. destruct (decide (rid0 = rid)) as [->|_].
    + by econstructor.
    + constructor.
Qed.

Lemma run_snoc evs ev st : run (evs ++ [ev]) st = (handle ev (run evs st)).1.
Proof. unfold run. by rewrite foldl_app. Qed.

(** ** One vote per day *)

Lemma has_voted_handle rid voter ev st :
  same_day rid ev = true → has_voted rid voter st →
  has_voted rid voter (handle ev st).1.
Proof.
  intros Hday (r & ps & Hr & Hact & Hps & Hvoted). unfold has_voted.
  destruct (handle_effect ev st rid)
    as [ev|rnd names h _ _|r0 v t ps0 Hr0 _ Hps0 _ _|r0 _ _|rnd r0 r' _ _ _ _ _ _];
    simpl in Hday.
  - by exists r, ps.
  - by apply bool_decide_eq_true in Hday.
  - assert (r0 = r) as -> by congruence.
    destruct (decide (v = voter)) as [->|Hne].
    + exists (after_vote voter t ps0 r), (set_voted_today true ps0).
      split_and!; [done | done | apply after_vote_voter | done].
    + exists (after_vote v t ps0 r), ps. split_and!; [done | done | | done].
      simpl. by rewrite dict_get_set_ne.
  - by apply bool_decide_eq_true in Hday.
  - by apply bool_decide_eq_true in Hday.
Qed.

Lemma has_voted_run rid voter evs st :
  Forall (λ ev, same_day rid ev = true) evs → has_voted rid voter st →
  has_voted rid voter (run evs st).
Proof.
  induction evs as [|ev evs IH] using rev_ind; intros Hday Hst; [done|].
  apply Forall_app in Hday as [Hevs Hev]. rewrite Forall_singleton in Hev.
  rewrite run_snoc. apply has_voted_handle; [done | by apply IH].
Qed.

(** A second vote in the same day is not always answered with
    AlreadyVotedToday: asha, having voted, is told UnknownTarget when she
    names somebody outside the room, and votes again with success once the
    room has been created anew under the same id. *)
Lemma second_vote_not_always_rejected :
  vote (Some "den") (Some "asha") (Some "chitra") day_state
  = (voted_state, Message "asha voted for chitra") ∧
  game_active voted_room = true ∧
  vote (Some "den") (Some "asha") (Some "zoya") voted_state
  = (voted_state, UnknownTarget) ∧
  UnknownTarget ≠ AlreadyVotedToday ∧
  ∃ st2 st3,
    create_room 0 (Some "den") (Some ["asha"; "bala"]) voted_state
    = (st2, Created "Room den created with players." "asha") ∧
    vote (Some "den") (Some "asha") (Some "bala") st2
    = (st3, Message "asha voted for bala").
Proof.
  split_and!; [reflexivity | reflexivity | reflexivity | discriminate |].
  eexists _, _. split; reflexivity.
Qed.

(** C5 (amended): after a successful vote by [voter] in room [rid], and
    after any further events that are not a reset of that room, a creation
    under its id or its timer, the room is still open and a vote by the same
    voter is turned away with the server unchanged: with AlreadyVotedToday
    when the target is a player of the room, with UnknownTarget when it is
    not.  A reset of the room then succeeds, and after it the same voter's
    vote for any player of the room is accepted. *)
Theorem one_vote_per_day rid voter vote_for st st1 msg evs :
  vote (Some rid) (Some voter) vote_for st = (st1, Message msg) →
  Forall (λ ev, same_day rid ev = true) evs →
  ∃ r2,
    rooms (run evs st1) !! rid = Some r2 ∧ game_active r2 = true ∧
    (∀ t2, vote (Some rid) (Some voter) t2 (run evs st1) =
           (run evs st1,
            if dict_mem t2 (players r2) then AlreadyVotedToday else UnknownTarget)) ∧
    ∃ st3,
      reset_votes (Some rid) (run evs st1)
      = (st3, Message "Votes reset, new day started") ∧
      ∀ t3, t3 ∈ dict_keys (players r2) →
            ∃ st4, vote (Some rid) (Some voter) (Some t3) st3 =
                   (st4, Message (voter +:+ " voted for " +:+ t3)).
Proof.
  intros Hvote Hday.
  assert (has_voted rid voter st1) as Hst1.
  { apply vote_Message_inv in Hvote
      as (rid0 & v & t & r & ps & [= <-] & [= <-] & -> & Hr & Hact & Hps & _ & _ & -> & _).
    exists (after_vote voter t ps r), (set_voted_today true ps).
    split_and!; [simpl; apply lookup_insert_eq | done | apply after_vote_voter | done]. }
  destruct (has_voted_run rid voter evs st1 Hday Hst1) as (r2 & ps & Hr2 & Hact & Hps & Hvoted).
  exists r2. split_and!; [done | done | |].
  - intros t2. by eapply vote_again.
  - eexists. split; [by apply reset_votes_ok|].
    intros t3 Ht3. eexists. eapply vote_ok.
    + simpl. apply lookup_insert_eq.
    + done.
    + rewrite new_day_get, Hps. done.
    + done.
    + simpl. by rewrite dict_keys_fmap.
Qed.

Lemma one_vote_per_day_witness :
  ∃ st2,
    st2 = run [CastVote (Some "den") (Some "bala") (Some "asha");
               GetStatus (Some "den");
               CreateRoom 3 (Some "hut") (Some ["dev"; "esha"])] voted_state ∧
    vote (Some "den") (Some "asha") (Some "bala") st2 = (st2, AlreadyVotedToday) ∧
    vote (Some "den") (Some "asha") (Some "zoya") st2 = (st2, UnknownTarget) ∧
    ∃ st3,
      reset_votes (Some "den") st2 = (st3, Message "Votes reset, new day started") ∧
      ∃ st4, vote (Some "den") (Some "asha") (Some "bala") st3
             = (st4, Message "asha voted for bala").
Proof.
  eexists. split; [reflexivity|].
  destruct (one_vote_per_day "den" "asha" (Some "chitra") day_state voted_state
              "asha voted for chitra"
              [CastVote (Some "den") (Some "bala") (Some "asha");
               GetStatus (Some "den");
               CreateRoom 3 (Some "hut") (Some ["dev"; "esha"])])
    as (r2 & Hr2 & _ & Hagain & st3 & Hreset & Hnew).
  - reflexivity.
  - repeat constructor.
  - vm_compute in Hr2. injection Hr2 as <-. split_and!.
    + apply (Hagain (Some "bala")).
    + apply (Hagain (Some "zoya")).
    + exists st3. split; [exact Hreset|]. apply (Hnew "bala").
      apply (bool_decide_unpack _). vm_compute. exact I.
Defined.

(** ** Reachable rooms *)

Lemma fresh_room_ok hidden names : NoDup names → room_ok (fresh_room hidden names).
Proof.
  intros Hnd. unfold room_ok, dict_wf. simpl. rewrite new_players_keys by done.
  split_and!; [done | apply NoDup_nil_2 | by intros p ?%elem_of_nil].
Qed.

Lemma after_vote_ok voter target ps r :
  dict_get voter (players r) = Some ps → target ∈ dict_keys (players r) →
  room_ok r → room_ok (after_vote voter target ps r).
Proof.
  intros Hps Htarget (Hpl & Hvs & Hsub). unfold room_ok, dict_wf in *. simpl.
  rewrite dict_keys_set_present by (apply dict_get_is_Some; by eexists).
  split_and!; [done | by apply dict_wf_set |].
  intros p [->|Hp]%elem_of_dict_keys_set; auto.
Qed.

Lemma new_day_ok r : room_ok r → room_ok (new_day r).
Proof.
  intros (Hpl & Hvs & Hsub). unfold room_ok, dict_wf in *. simpl.
  by rewrite dict_keys_fmap.
Qed.

Lemma room_effect_ok st rid ev o :
  (∀ rid r, rooms st !! rid = Some r → room_ok r) →
  room_effect st rid ev o → ∀ r, o = Some r → room_ok r.
Proof.
  intros Hst Heff r' Ho.
  destruct Heff as [ev|rnd names h Hnd _|r v t ps Hr _ Hps _ Ht|r Hr _
                   |rnd r r0 Hr _ _ Hpl Hvs _].
  - by eapply Hst.
  - injection Ho as <-. by apply fresh_room_ok.
  - injection Ho as <-. apply after_vote_ok; [done..|]. by eapply Hst.
  - injection Ho as <-. apply new_day_ok. by eapply Hst.
  - injection Ho as <-. unfold room_ok, dict_wf. rewrite Hpl, Hvs. by eapply Hst.
Qed.

Lemma reachable_rooms_ok st :
  reachable st → ∀ rid r, rooms st !! rid = Some r → room_ok r.
Proof.
  intros [evs <-]. induction evs as [|ev evs IH] using rev_ind; intros rid r Hr.
  - simpl in Hr. by rewrite lookup_empty in Hr.
  - rewrite run_snoc in Hr.
    exact (room_effect_ok _ _ _ _ IH (handle_effect ev (run evs init) rid) r Hr).
Qed.

(** C10: in every state the server can reach from its start, through
    creations, votes, resets, status reads and timers, each key of a room's
    [votes] is a key of that room's [players]. *)
Theorem votes_keys_are_players st rid r p :
  reachable st → rooms st !! rid = Some r →
  p ∈ dict_keys (votes r) → p ∈ dict_keys (players r).
Proof.
  intros Hreach Hr. by apply (reachable_rooms_ok st Hreach rid r Hr).
Qed.

Lemma votes_keys_are_players_witness :
  run [CreateRoom 4 (Some "den") (Some ["asha"; "bala"; "chitra"]);
       CastVote (Some "den") (Some "asha") (Some "chitra")] init = voted_state ∧
  "chitra" ∈ dict_keys (players voted_room).
Proof.
  split; [reflexivity|].
  apply (votes_keys_are_players voted_state "den" voted_room "chitra").
  - exists [CreateRoom 4 (Some "den") (Some ["asha"; "bala"; "chitra"]);
            CastVote (Some "den") (Some "asha") (Some "chitra")].
    reflexivity.
  - reflexivity.
  - apply (bool_decide_unpack _). vm_compute. exact I.
Defined.

(** * Further properties of the handlers *)

(** ** Invariants of reachable rooms *)

(** Closing an open room always stores a result text. *)
Lemma end_voting_shape rnd rid st :
  end_voting rnd rid st = st ∨
  ∃ r text, rooms st !! rid = Some r ∧ game_active r = true ∧
            end_voting rnd rid st = store rid (closed_with text r) st.
Proof.
  destruct (rooms st !! rid) as [r|] eqn:Hr.
  - destruct (game_active r) eqn:Hact.
    + right. exists r. destruct (decide (votes r = [])) as [Hvs|Hvs].
      * eexists. split_and!; [done..|]. by apply end_voting_no_votes.
      * destruct (end_voting_some_votes rnd rid st r Hr Hact Hvs)
          as (m & e & _ & _ & Hend).
        eexists. split_and!; [done..|]. exact Hend.
    + left. unfold end_voting. by rewrite Hr, Hact.
  - left. unfold end_voting. by rewrite Hr.
Qed.

Section RoomInvariant.
Variable P : room → Prop.
Hypothesis P_fresh : ∀ hidden names,
  2 ≤ length names ≤ 20 → NoDup names → hidden ∈ names →
  P (fresh_room hidden names).
Hypothesis P_vote : ∀ r voter target ps,
  P r → game_active r = true →
  dict_get voter (players r) = Some ps → voted_today ps = false →
  target ∈ dict_keys (players r) →
  P (after_vote voter target ps r).
Hypothesis P_reset : ∀ r, P r → game_active r = true → P (new_day r).
Hypothesis P_close : ∀ r text, P r → game_active r = true → P (closed_with text r).

Lemma handle_preserves ev st :
  (∀ rid r, rooms st !! rid = Some r → P r) →
  ∀ rid r, rooms (handle ev st).1 !! rid = Some r → P r.
Proof.
  intros Hst rid r'.
  destruct ev as [rnd room_id names|room_id voter vote_for|room_id|room_id|rnd rid0];
    simpl.
  - destruct (create_room_cases rnd room_id names st) as [->|(msg & h & Hcr)];
      [apply Hst|].
    apply create_room_Created_inv in Hcr
      as (rid0 & l & -> & -> & _ & Hlen & Hnd & Hch%choice_elem & ->).
    simpl. rewrite lookup_insert. destruct (decide (rid0 = rid)) as [->|_].
    + intros [= <-]. by apply P_fresh.
    + apply Hst.
  - destruct (vote_cases room_id voter vote_for st) as [->|[msg Hmsg]]; [apply Hst|].
    destruct (vote room_id voter vote_for st) as [st' resp] eqn:Hvote.
    simpl in Hmsg. subst resp.
    apply vote_Message_inv in Hvote
      as (rid0 & v & t & r & ps & -> & -> & -> & Hr & Hact & Hps & Hnot & Ht & -> & _).
    simpl. rewrite lookup_insert. destruct (decide (rid0 = rid)) as [->|_].
    + intros [= <-]. apply P_vote; try done. by eapply Hst.
    + apply Hst.
  - destruct (reset_votes_cases room_id st)
      as [->|(rid0 & r & -> & Hr & [[_ ->]|[Hact ->]])]; [apply Hst..|].
    simpl. rewrite lookup_insert. destruct (decide (rid0 = rid)) as [->|_].
    + intros [= <-]. apply P_reset; [|done]. by eapply Hst.
    + apply Hst.
  - rewrite status_state. apply Hst.
  - destruct (bool_decide (rid0 ∈ timers st)); [|apply Hst]. simpl.
    set (st0 := {| rooms := rooms st; timers := wake rid0 (timers st) |}).
    destruct (end_voting_shape rnd rid0 st0) as [->|(r & text & Hr & Hact & ->)];
      [apply Hst|].
    simpl in Hr. simpl. rewrite lookup_insert.
    destruct (decide (rid0 = rid)) as [->|_].
    + intros [= <-]. apply P_close; [|done]. by eapply Hst.
    + apply Hst.
Qed.

Lemma reachable_invariant st :
  reachable st → ∀ rid r, rooms st !! rid = Some r → P r.
Proof.
  intros [evs <-]. induction evs as [|ev evs IH] using rev_ind.
  - intros rid r Hr. simpl in Hr. by rewrite lookup_empty in Hr.
  - rewrite run_snoc. by apply handle_preserves.
Qed.
End RoomInvariant.

Lemma end_voting_open rnd rid st r :
  rooms st !! rid = Some r → game_active r = true →
  ∃ text, end_voting rnd rid st = store rid (closed_with text r) st.
Proof.
  intros Hr Hact. destruct (decide (votes r = [])) as [Hvs|Hvs].
  - eexists. by apply end_voting_no_votes.
  - destruct (end_voting_some_votes rnd rid st r Hr Hact Hvs) as (m & e & _ & _ & Hend).
    eexists. exact Hend.
Qed.

Lemma end_voting_absent rnd rid st :
  rooms st !! rid = None → end_voting rnd rid st = st.
Proof. intros Hr. unfold end_voting. by rewrite Hr. Qed.

Lemma end_voting_closed rnd rid st r :
  rooms st !! rid = Some r → game_active r = false → end_voting rnd rid st = st.
Proof. intros Hr Hact. unfold end_voting. by rewrite Hr, Hact. Qed.

Lemma reachable_voted_state : reachable voted_state.
Proof.
  exists [CreateRoom 4 (Some "den") (Some ["asha"; "bala"; "chitra"]);
          CastVote (Some "den") (Some "asha") (Some "chitra")].
  reflexivity.
Defined.

Lemma reachable_fired_state : reachable fired_state.
Proof.
  exists [CreateRoom 4 (Some "den") (Some ["asha"; "bala"; "chitra"]);
          CastVote (Some "den") (Some "asha") (Some "chitra");
          TimerFires 0 "den"].
  reflexivity.
Defined.

(** Rewriting a player's entry without touching [is_bhadwa] keeps the list
    of flagged players. *)
Lemma hidden_filter_set voter ps ps' (d : dict player_state) :
  dict_get voter d = Some ps → is_bhadwa ps' = is_bhadwa ps →
  (filter (λ kv, is_bhadwa kv.2 = true) (dict_items (dict_set voter ps' d))).*1 =
  (filter (λ kv, is_bhadwa kv.2 = true) (dict_items d)).*1.
Proof.
  unfold dict_items. intros Hget Hsame. induction d as [|[k v] d IH]; [done|].
  simpl in Hget. cbn [dict_set]. destruct (decide (voter = k)) as [->|Hne].
  - injection Hget as ->. destruct (decide (is_bhadwa ps = true)) as [Hb|Hb].
    + rewrite !filter_cons_True by (simpl; congruence). by rewrite !fmap_cons.
    + rewrite !filter_cons_False by (simpl; congruence). done.
  - destruct (decide (is_bhadwa v = true)) as [Hb|Hb].
    + rewrite !filter_cons_True by done. rewrite !fmap_cons. f_equal. auto.
    + rewrite !filter_cons_False by done. auto.
Qed.

Lemma hidden_filter_fmap (f : player_state → player_state) (d : dict player_state) :
  (∀ ps, is_bhadwa (f ps) = is_bhadwa ps) →
  (filter (λ kv, is_bhadwa kv.2 = true) (dict_items (prod_map id f <$> d))).*1 =
  (filter (λ kv, is_bhadwa kv.2 = true) (dict_items d)).*1.
Proof.
  unfold dict_items. intros Hsame. induction d as [|[k v] d IH]; [done|].
  rewrite fmap_cons. destruct (decide (is_bhadwa v = true)) as [Hb|Hb].
  - rewrite !filter_cons_True by (simpl; by rewrite ?Hsame).
    rewrite !fmap_cons. f_equal. auto.
  - rewrite !filter_cons_False by (simpl; by rewrite ?Hsame). auto.
Qed.

(** X1: at every moment of every run, each room has exactly one player
    whose [is_bhadwa] flag is set, and it is the player named by the room's
    [bhadwa] field, who is one of the room's players: votes, resets and the
    closing of the vote never move or duplicate the hidden role. *)
Theorem hidden_role_stays st rid r :
  reachable st → rooms st !! rid = Some r →
  hidden_role_players r = [bhadwa r] ∧ bhadwa r ∈ dict_keys (players r).
Proof.
  intros Hreach. revert rid r.
  apply (reachable_invariant
           (λ r, hidden_role_players r = [bhadwa r] ∧
                 bhadwa r ∈ dict_keys (players r))); [| | | |done].
  - intros h names _ Hnd Hin. split.
    + by apply hidden_role_players_new.
    + simpl. by rewrite new_players_keys.
  - intros r v t ps [Hone Hin] _ Hps _ _. unfold hidden_role_players in *. simpl.
    split.
    + by rewrite (hidden_filter_set v ps).
    + rewrite dict_keys_set_present; [done|]. apply dict_get_is_Some. by eexists.
  - intros r [Hone Hin] _. unfold hidden_role_players in *. simpl. split.
    + by rewrite hidden_filter_fmap.
    + by rewrite dict_keys_fmap.
  - intros r text [Hone Hin] _. done.
Qed.

Lemma hidden_role_stays_witness :
  hidden_role_players closed_room = ["bala"] ∧
  "bala" ∈ dict_keys (players closed_room).
Proof.
  apply (hidden_role_stays fired_state "den" closed_room).
  - exact reachable_fired_state.
  - reflexivity.
Defined.

(** X2: at every moment of every run, each room has between 2 and 20
    players with pairwise distinct names: the player set fixed at creation
    is never grown, shrunk or duplicated. *)
Theorem player_count_stays st rid r :
  reachable st → rooms st !! rid = Some r →
  2 ≤ length (dict_keys (players r)) ≤ 20 ∧ NoDup (dict_keys (players r)).
Proof.
  intros Hreach. revert rid r.
  apply (reachable_invariant
           (λ r, 2 ≤ length (dict_keys (players r)) ≤ 20 ∧
                 NoDup (dict_keys (players r)))); [| | | |done].
  - intros h names Hlen Hnd _. simpl. by rewrite new_players_keys.
  - intros r v t ps Hr _ Hps _ _. simpl.
    rewrite dict_keys_set_present; [done|]. apply dict_get_is_Some. by eexists.
  - intros r Hr _. simpl. by rewrite dict_keys_fmap.
  - intros r text Hr _. done.
Qed.

Lemma player_count_stays_witness :
  2 ≤ length (dict_keys (players voted_room)) ≤ 20 ∧
  NoDup (dict_keys (players voted_room)).
Proof.
  apply (player_count_stays voted_state "den" voted_room).
  - exact reachable_voted_state.
  - reflexivity.
Defined.

(** X3: a result is stored only in a closed room: at every moment of every
    run, an open room has [result] [None], so a room that carries a result
    text has [game_active] false. *)
Theorem result_only_when_closed st rid r :
  reachable st → rooms st !! rid = Some r →
  (game_active r = true → result r = None) ∧
  (∀ text, result r = Some text → game_active r = false).
Proof.
  intros Hreach Hr.
  assert (game_active r = true → result r = None) as Hopen.
  { revert rid r Hr.
    apply (reachable_invariant (λ r, game_active r = true → result r = None));
      [| | | |done].
    - intros h names _ _ _. done.
    - intros r v t ps Hr _ _ _ _. done.
    - intros r Hr _. done.
    - intros r text _ _. simpl. discriminate. }
  split; [done|]. intros text Hres.
  destruct (game_active r); [|done]. rewrite Hopen in Hres; done.
Qed.

Lemma result_only_when_closed_witness :
  result voted_room = None ∧ game_active closed_room = false.
Proof.
  split.
  - apply (result_only_when_closed voted_state "den" voted_room);
      [exact reachable_voted_state | reflexivity | reflexivity].
  - apply (result_only_when_closed fired_state "den" closed_room)
      with (text := "chitra was eliminated. Bhadwa wins.");
      [exact reachable_fired_state | reflexivity | reflexivity].
Defined.

Lemma reachable_counts_positive st rid r :
  reachable st → rooms st !! rid = Some r →
  ∀ p n, dict_get p (votes r) = Some n → 1 ≤ n.
Proof.
  intros Hreach. revert rid r.
  apply (reachable_invariant
           (λ r, ∀ p n, dict_get p (votes r) = Some n → 1 ≤ n)); [| | | |done].
  - intros h names _ _ _ p n. simpl. discriminate.
  - intros r v t ps Hr _ _ _ _ p n. simpl. rewrite dict_get_set.
    destruct (decide (t = p)) as [->|_]; [|apply Hr]. intros [= <-]. lia.
  - intros r Hr _. exact Hr.
  - intros r text Hr _. exact Hr.
Qed.

(** X4: at every moment of every run, every entry of a room's [votes]
    holds a count of at least 1: a player without votes has no entry, never
    an entry with 0. *)
Theorem vote_counts_positive st rid r p n :
  reachable st → rooms st !! rid = Some r →
  dict_get p (votes r) = Some n → 1 ≤ n.
Proof.
  intros Hreach Hr. by apply (reachable_counts_positive st rid r).
Qed.

Lemma vote_counts_positive_witness :
  ∃ n, dict_get "chitra" (votes voted_room) = Some n ∧ 1 ≤ n.
Proof.
  exists 1. split; [reflexivity|].
  apply (vote_counts_positive voted_state "den" voted_room "chitra" 1).
  - exact reachable_voted_state.
  - reflexivity.
  - reflexivity.
Defined.

(** ** Timers *)

Lemma elem_of_wake_ne rid rid0 ts : rid ≠ rid0 → rid ∈ ts → rid ∈ wake rid0 ts.
Proof.
  intros Hne. induction ts as [|t ts IH]; [done|]. simpl.
  intros [->|Hin]%elem_of_cons.
  - rewrite decide_False by done. apply list_elem_of_here.
  - destruct (decide (rid0 = t)); [done|]. apply list_elem_of_further. auto.
Qed.

Lemma handle_keeps_timer ev st :
  (∀ rid r, rooms st !! rid = Some r → game_active r = true → rid ∈ timers st) →
  ∀ rid r, rooms (handle ev st).1 !! rid = Some r → game_active r = true →
           rid ∈ timers (handle ev st).1.
Proof.
  intros Hst rid r'.
  destruct ev as [rnd room_id names|room_id voter vote_for|room_id|room_id|rnd rid0];
    simpl.
  - destruct (create_room_cases rnd room_id names st) as [->|(msg & h & Hcr)];
      [apply Hst|].
    apply create_room_Created_inv in Hcr as (rid0 & l & -> & -> & _ & _ & _ & _ & ->).
    simpl. rewrite lookup_insert, elem_of_app, list_elem_of_singleton.
    destruct (decide (rid0 = rid)) as [->|_]; [by right|].
    intros Hr Hact. left. by eapply Hst.
  - destruct (vote_cases room_id voter vote_for st) as [->|[msg Hmsg]]; [apply Hst|].
    destruct (vote room_id voter vote_for st) as [st' resp] eqn:Hvote.
    simpl in Hmsg. subst resp.
    apply vote_Message_inv in Hvote
      as (rid0 & v & t & r & ps & -> & -> & -> & Hr & Hact & _ & _ & _ & -> & _).
    simpl. rewrite lookup_insert. destruct (decide (rid0 = rid)) as [->|_].
    + intros _ _. by eapply Hst.
    + apply Hst.
  - destruct (reset_votes_cases room_id st)
      as [->|(rid0 & r & -> & Hr & [[_ ->]|[Hact ->]])]; [apply Hst..|].
    simpl. rewrite lookup_insert. destruct (decide (rid0 = rid)) as [->|_].
    + intros _ _. by eapply Hst.
    + apply Hst.
  - rewrite status_state. apply Hst.
  - destruct (bool_decide (rid0 ∈ timers st)); [|apply Hst]. simpl.
    set (st0 := {| rooms := rooms st; timers := wake rid0 (timers st) |}).
    destruct (rooms st !! rid0) as [r0|] eqn:Hr0.
    + destruct (game_active r0) eqn:Hact0.
      * destruct (end_voting_open rnd rid0 st0 r0 Hr0 Hact0) as [text ->].
        simpl. rewrite lookup_insert. destruct (decide (rid0 = rid)) as [->|Hne].
        -- intros [= <-]. discriminate.
        -- intros Hr Hact. apply elem_of_wake_ne; [done|]. by eapply Hst.
      * rewrite (end_voting_closed rnd rid0 st0 r0 Hr0 Hact0). simpl.
        intros Hr Hact. apply elem_of_wake_ne; [|by eapply Hst].
        intros ->. congruence.
    + rewrite (end_voting_absent rnd rid0 st0 Hr0). simpl.
      intros Hr Hact. apply elem_of_wake_ne; [|by eapply Hst].
      intros ->. congruence.
Qed.

(** X5: at every moment of every run, every open room has a timer thread
    still asleep for its id: no room is left open without a pending close. *)
Theorem open_room_has_timer st rid r :
  reachable st → rooms st !! rid = Some r → game_active r = true →
  rid ∈ timers st.
Proof.
  intros [evs <-]. revert rid r. induction evs as [|ev evs IH] using rev_ind.
  - intros rid r Hr. simpl in Hr. by rewrite lookup_empty in Hr.
  - rewrite run_snoc. by apply handle_keeps_timer.
Qed.

Lemma open_room_has_timer_witness : "den" ∈ timers voted_state.
Proof.
  apply (open_room_has_timer voted_state "den" voted_room).
  - exact reachable_voted_state.
  - reflexivity.
  - reflexivity.
Defined.

(** ** Rooms are independent, closed rooms are final *)

(** X6: an event addressed to another room id, or to none, leaves the room
    stored under [rid] exactly as it was. *)
Theorem other_room_untouched ev st rid :
  event_room ev ≠ Some rid →
  rooms (handle ev st).1 !! rid = rooms st !! rid.
Proof.
  intros Hother.
  destruct (handle_effect ev st rid)
    as [ev|rnd names h _ _|r v t ps _ _ _ _ _|r _ _|rnd r r' _ _ _ _ _ _];
    simpl in Hother; done.
Qed.

Lemma other_room_untouched_witness :
  rooms (handle (CastVote (Some "hut") (Some "asha") (Some "bala")) voted_state).1
    !! "den" = Some voted_room ∧
  rooms (handle (TimerFires 2 "hut") voted_state).1 !! "den" = Some voted_room.
Proof.
  split.
  - apply (other_room_untouched (CastVote (Some "hut") (Some "asha") (Some "bala"))
             voted_state "den").
    discriminate.
  - apply (other_room_untouched (TimerFires 2 "hut") voted_state "den").
    discriminate.
Defined.

(** X7: a closed room is final: whatever requests and timers follow, as
    long as no creation request names its id, the room stored under that id
    stays the same in every field, its result included. *)
Theorem closed_room_is_final rid st r evs :
  rooms st !! rid = Some r → game_active r = false →
  Forall (λ ev, recreates rid ev = false) evs →
  rooms (run evs st) !! rid = Some r.
Proof.
  intros Hr Hact. induction evs as [|ev evs IH] using rev_ind; intros Hevs; [done|].
  apply Forall_app in Hevs as [Hevs Hev]. rewrite Forall_singleton in Hev.
  specialize (IH Hevs). rewrite run_snoc.
  destruct (handle_effect ev (run evs st) rid)
    as [ev|rnd names h _ _|r0 v t ps Hr0 Hact0 _ _ _|r0 Hr0 Hact0
       |rnd r0 r' Hr0 Hact0 _ _ _ _]; simpl in Hev.
  - done.
  - by apply bool_decide_eq_false in Hev.
  - congruence.
  - congruence.
  - congruence.
Qed.

Lemma closed_room_is_final_witness :
  rooms (run [CastVote (Some "den") (Some "bala") (Some "asha");
              ResetDay (Some "den"); TimerFires 9 "den";
              CreateRoom 1 (Some "hut") (Some ["dev"; "esha"])] closed_state)
    !! "den" = Some closed_room.
Proof.
  apply (closed_room_is_final "den" closed_state closed_room).
  - reflexivity.
  - reflexivity.
  - repeat constructor.
Defined.

(** ** Reading the status *)

(** X8: a status request is a pure read: dropping it from any sequence of
    events leaves the final server state the same. *)
Theorem status_is_pure_read room_id evs1 evs2 st :
  run (evs1 ++ GetStatus room_id :: evs2) st = run (evs1 ++ evs2) st.
Proof.
  unfold run. rewrite !foldl_app. simpl. by rewrite status_state.
Qed.

Lemma handle_keeps_identity rid names hidden ev st :
  recreates rid ev = false →
  (∃ r, rooms st !! rid = Some r ∧ dict_keys (players r) = names ∧ bhadwa r = hidden) →
  ∃ r, rooms (handle ev st).1 !! rid = Some r ∧
       dict_keys (players r) = names ∧ bhadwa r = hidden.
Proof.
  intros Hev (r & Hr & Hkeys & Hb).
  destruct (handle_effect ev st rid)
    as [ev|rnd l h _ _|r0 v t ps Hr0 _ Hps _ _|r0 Hr0 _|rnd r0 r' Hr0 _ _ Hpl _ Hb'];
    simpl in Hev.
  - by exists r.
  - by apply bool_decide_eq_false in Hev.
  - assert (r0 = r) as -> by congruence. eexists. split; [done|]. simpl.
    rewrite dict_keys_set_present; [done|]. apply dict_get_is_Some. by eexists.
  - assert (r0 = r) as -> by congruence. eexists. split; [done|]. simpl.
    by rewrite dict_keys_fmap.
  - assert (r0 = r) as -> by congruence. exists r'. by rewrite Hpl, Hb'.
Qed.

(** X9: what [create_room] registered is what [status] reports: after a
    successful creation, and whatever events follow short of another
    creation request under the same id, [status] lists the player names
    given at creation, in the order given, and names the hidden-role player
    that the creation response named. *)
Theorem status_after_create rnd rid names st st1 msg hidden evs :
  create_room rnd (Some rid) (Some names) st = (st1, Created msg hidden) →
  Forall (λ ev, recreates rid ev = false) evs →
  ∃ vs act res,
    status (Some rid) (run evs st1) = (run evs st1, Info names hidden vs act res).
Proof.
  intros Hcr Hevs.
  apply create_room_Created_inv in Hcr
    as (rid0 & l & [= <-] & [= <-] & _ & _ & Hnd & _ & ->).
  set (st1 := {| rooms := _; timers := _ |}).
  assert (∃ r, rooms (run evs st1) !! rid = Some r ∧
               dict_keys (players r) = names ∧ bhadwa r = hidden)
    as (r & Hr & Hkeys & Hb).
  { induction evs as [|ev evs IH] using rev_ind.
    - exists (fresh_room hidden names). split_and!.
      + simpl. apply lookup_insert_eq.
      + by apply new_players_keys.
      + done.
    - apply Forall_app in Hevs as [Hevs Hev]. rewrite Forall_singleton in Hev.
      rewrite run_snoc. apply handle_keeps_identity; auto. }
  exists (votes r), (game_active r), (result r).
  unfold status. simpl. by rewrite Hr, Hkeys, Hb.
Qed.

Lemma status_after_create_witness :
  ∃ vs act res,
    status (Some "den")
      (run [CastVote (Some "den") (Some "asha") (Some "chitra");
            ResetDay (Some "den"); TimerFires 0 "den"] day_state)
    = (run [CastVote (Some "den") (Some "asha") (Some "chitra");
            ResetDay (Some "den"); TimerFires 0 "den"] day_state,
       Info ["asha"; "bala"; "chitra"] "bala" vs act res).
Proof.
  apply (status_after_create 4 "den" ["asha"; "bala"; "chitra"] init day_state
           "Room den created with players." "bala").
  - reflexivity.
  - repeat constructor.
Defined.

(** ** Creating rooms *)

(** X10: [create_room] accepts exactly the requests with a non-empty room
    id and 2 to 20 pairwise distinct names; every other request is answered
    with a 400 error and leaves rooms and timers as they were. *)
Theorem create_room_accepts_iff rnd room_id player_names st :
  (valid_creation room_id player_names →
   ∃ st' msg hidden,
     create_room rnd room_id player_names st = (st', Created msg hidden)) ∧
  (¬ valid_creation room_id player_names →
   ∃ err, create_room rnd room_id player_names st = (st, Error err 400)).
Proof.
  split.
  - intros (rid & names & -> & -> & Hrid & Hlen & Hnd).
    destruct (create_room_ok rnd rid names st Hrid Hlen Hnd) as (hidden & _ & ->).
    by eexists _, _, _.
  - intros Hinvalid. unfold create_room.
    destruct (falsy_str room_id || falsy_list player_names) eqn:Hfalsy;
      [by eexists|].
    apply orb_false_iff in Hfalsy as [Hrid Hnames].
    destruct room_id as [rid|]; [|done]. destruct player_names as [names|]; [|done].
    destruct (bool_decide (length names < 2) || bool_decide (20 < length names))
      eqn:Hcount; [by eexists|].
    apply orb_false_iff in Hcount as [Hlo%bool_decide_eq_false Hhi%bool_decide_eq_false].
    destruct (bool_decide (distinct_count names = length names)) eqn:Hdistinct;
      cbn [negb]; [|by eexists].
    apply bool_decide_eq_true, distinct_count_NoDup in Hdistinct.
    exfalso. apply Hinvalid. exists rid, names. split_and!; try done; try lia.
    simpl in Hrid. by apply bool_decide_eq_false in Hrid.
Qed.

Lemma create_room_accepts_iff_witness :
  (∃ st' msg hidden,
     create_room 5 (Some "den") (Some ["asha"; "bala"; "chitra"]) init
     = (st', Created msg hidden)) ∧
  (∃ err, create_room 5 (Some "") (Some ["asha"; "bala"; "chitra"]) init
          = (init, Error err 400)).
Proof.
  split.
  - apply (create_room_accepts_iff 5 (Some "den") (Some ["asha"; "bala"; "chitra"]) init).
    exists "den", ["asha"; "bala"; "chitra"].
    split_and!; [reflexivity | reflexivity | discriminate | simpl; lia | simpl; lia |].
    apply (bool_decide_unpack _). vm_compute. exact I.
  - apply (create_room_accepts_iff 5 (Some "") (Some ["asha"; "bala"; "chitra"]) init).
    intros (rid & names & [= <-] & _ & Hrid & _). by apply Hrid.
Defined.

Lemma pending_app rid ts l : pending rid (ts ++ l) = pending rid ts + pending rid l.
Proof. unfold pending. by rewrite filter_app, length_app. Qed.

Lemma pending_singleton rid : pending rid [rid] = 1.
Proof. unfold pending. by rewrite filter_cons_True. Qed.

Lemma pending_elem rid ts : 0 < pending rid ts ↔ rid ∈ ts.
Proof.
  unfold pending. split.
  - destruct (filter (λ t, t = rid) ts) as [|x l] eqn:Hf; [simpl; lia|].
    intros _. assert (x ∈ filter (λ t, t = rid) ts) as Hx
      by (rewrite Hf; apply list_elem_of_here).
    by apply list_elem_of_filter in Hx as [-> ?].
  - intros Hin. assert (rid ∈ filter (λ t, t = rid) ts) as Hx
      by (by apply list_elem_of_filter).
    destruct (filter (λ t, t = rid) ts); [by apply elem_of_nil in Hx | simpl; lia].
Qed.

Lemma pending_cons rid t ts :
  pending rid (t :: ts) = (if decide (t = rid) then 1 else 0) + pending rid ts.
Proof.
  unfold pending. destruct (decide (t = rid)) as [Heq|Hne].
  - by rewrite filter_cons_True.
  - by rewrite filter_cons_False.
Qed.

Lemma pending_wake_ne rid rid0 ts :
  rid ≠ rid0 → pending rid (wake rid0 ts) = pending rid ts.
Proof.
  intros Hne. induction ts as [|t ts IH]; [done|]. cbn [wake].
  destruct (decide (rid0 = t)) as [<-|_].
  - rewrite pending_cons. by rewrite decide_False.
  - rewrite !pending_cons. by rewrite IH.
Qed.

Lemma pending_wake rid ts : pending rid (wake rid ts) = pending rid ts - 1.
Proof.
  induction ts as [|t ts IH]; [done|]. cbn [wake].
  destruct (decide (rid = t)) as [<-|Hne].
  - rewrite pending_cons, decide_True by done. lia.
  - rewrite !pending_cons, decide_False by done. by rewrite IH.
Qed.

Lemma end_voting_timers rnd rid st : timers (end_voting rnd rid st) = timers st.
Proof.
  destruct (end_voting_cases rnd rid st) as [->|(r & r' & _ & _ & -> & _)]; done.
Qed.

(** No event but the room's own timer takes one of its sleeping threads. *)
Lemma handle_pending rid ev st :
  leaves_timer rid ev = true →
  pending rid (timers st) ≤ pending rid (timers (handle ev st).1).
Proof.
  intros Hev.
  destruct ev as [rnd room_id names|room_id voter vote_for|room_id|room_id|rnd rid0];
    simpl.
  - destruct (create_room_cases rnd room_id names st) as [->|(msg & h & Hcr)]; [done|].
    apply create_room_Created_inv in Hcr as (rid0 & l & -> & -> & _ & _ & _ & _ & ->).
    simpl. rewrite pending_app. lia.
  - destruct (vote_cases room_id voter vote_for st) as [->|[msg Hmsg]]; [done|].
    destruct (vote room_id voter vote_for st) as [st' resp] eqn:Hvote.
    simpl in Hmsg. subst resp.
    by apply vote_Message_inv in Hvote
      as (rid0 & v & t & r & ps & _ & _ & _ & _ & _ & _ & _ & _ & -> & _).
  - destruct (reset_votes_cases room_id st)
      as [->|(rid0 & r & -> & Hr & [[_ ->]|[Hact ->]])]; done.
  - by rewrite status_state.
  - destruct (bool_decide (rid0 ∈ timers st)); [|done]. simpl.
    rewrite end_voting_timers. simpl. simpl in Hev.
    apply bool_decide_eq_true in Hev. by rewrite pending_wake_ne.
Qed.

Lemma handle_keeps_open rid names hidden ev st :
  leaves_timer rid ev = true →
  (∃ r, rooms st !! rid = Some r ∧ game_active r = true ∧
        dict_keys (players r) = names ∧ bhadwa r = hidden) →
  ∃ r, rooms (handle ev st).1 !! rid = Some r ∧ game_active r = true ∧
       dict_keys (players r) = names ∧ bhadwa r = hidden.
Proof.
  intros Hev (r & Hr & Hact & Hkeys & Hb).
  destruct (handle_effect ev st rid)
    as [ev|rnd l h _ _|r0 v t ps Hr0 _ Hps _ _|r0 Hr0 _|rnd r0 r' _ _ _ _ _ _];
    simpl in Hev.
  - by exists r.
  - by apply bool_decide_eq_true in Hev.
  - assert (r0 = r) as -> by congruence. eexists. split; [done|]. simpl.
    rewrite dict_keys_set_present; [done|]. apply dict_get_is_Some. by eexists.
  - assert (r0 = r) as -> by congruence. eexists. split; [done|]. simpl.
    by rewrite dict_keys_fmap.
  - by apply bool_decide_eq_true in Hev.
Qed.

(** X11: creating a room under an id whose earlier timer is still asleep
    does not cancel that timer.  Whatever votes, resets, status reads and
    events of other rooms follow, the new room is still open with its
    players and hidden role, and when the old timer then wakes it closes
    the new room: [game_active] becomes false, players and votes stay, the
    result is the no-votes text when nobody has voted (so always when the
    timer wakes at once) and otherwise the innocents-win or Bhadwa-wins
    text for the drawn top candidate; a timer for the id is still asleep
    afterwards. *)
Theorem stale_timer_closes_new_room rnd rnd' rid names st st1 msg hidden evs :
  rid ∈ timers st →
  create_room rnd (Some rid) (Some names) st = (st1, Created msg hidden) →
  Forall (λ ev, leaves_timer rid ev = true) evs →
  ∃ r2 r3,
    rooms (run evs st1) !! rid = Some r2 ∧ game_active r2 = true ∧
    dict_keys (players r2) = names ∧ bhadwa r2 = hidden ∧
    rooms (handle (TimerFires rnd' rid) (run evs st1)).1 !! rid = Some r3 ∧
    game_active r3 = false ∧ players r3 = players r2 ∧ votes r3 = votes r2 ∧
    bhadwa r3 = hidden ∧
    (evs = [] → result r3 = Some "No votes cast. No elimination.") ∧
    (votes r2 = [] → result r3 = Some "No votes cast. No elimination.") ∧
    (votes r2 ≠ [] →
     ∃ max_votes eliminated,
       py_max (dict_values (votes r2)) = Some max_votes ∧
       choice rnd' (candidates max_votes (votes r2)) = Some eliminated ∧
       (eliminated = hidden →
        result r3 =
          Some ("Bhadwa " +:+ eliminated +:+ " was eliminated. Innocents win!")) ∧
       (eliminated ≠ hidden →
        result r3 = Some (eliminated +:+ " was eliminated. Bhadwa wins."))) ∧
    rid ∈ timers (handle (TimerFires rnd' rid) (run evs st1)).1.
Proof.
  intros Hin Hcr Hevs.
  apply create_room_Created_inv in Hcr
    as (rid0 & l & [= <-] & [= <-] & _ & _ & Hnd & _ & ->).
  set (st1 := {| rooms := _; timers := _ |}).
  assert ((∃ r, rooms (run evs st1) !! rid = Some r ∧ game_active r = true ∧
                dict_keys (players r) = names ∧ bhadwa r = hidden) ∧
          2 ≤ pending rid (timers (run evs st1))) as [(r2 & Hr2 & Hact & Hkeys & Hb) Hpend].
  { clear rnd'. induction evs as [|ev evs IH] using rev_ind.
    - split.
      + exists (fresh_room hidden names). split_and!; [|done| |done].
        * simpl. apply lookup_insert_eq.
        * by apply new_players_keys.
      + simpl. rewrite pending_app, pending_singleton.
        apply pending_elem in Hin. lia.
    - apply Forall_app in Hevs as [Hevs Hev]. rewrite Forall_singleton in Hev.
      destruct (IH Hevs) as [Hroom Hpend]. rewrite run_snoc. split.
      + by apply handle_keeps_open.
      + pose proof (handle_pending rid ev (run evs st1) Hev). lia. }
  assert (evs = [] → votes r2 = []) as Honce.
  { intros ->. simpl in Hr2. rewrite lookup_insert_eq in Hr2. by injection Hr2 as <-. }
  simpl. rewrite bool_decide_eq_true_2 by (apply pending_elem; lia). simpl.
  set (st0 := {| rooms := rooms (run evs st1);
                 timers := wake rid (timers (run evs st1)) |}).
  assert (rid ∈ wake rid (timers (run evs st1))) as Hleft
    by (apply pending_elem; rewrite pending_wake; lia).
  destruct (decide (votes r2 = [])) as [Hvs|Hvs].
  - rewrite (end_voting_no_votes rnd' rid st0 r2) by done.
    exists r2, (closed_with "No votes cast. No elimination." r2).
    split_and!; try done.
    simpl. apply lookup_insert_eq.
  - destruct (end_voting_some_votes rnd' rid st0 r2 Hr2 Hact Hvs)
      as (m & e & Hm & He & ->).
    exists r2, (closed_with (result_text e (bhadwa r2)) r2).
    split_and!; try done.
    + simpl. apply lookup_insert_eq.
    + intros Hnil. by apply Honce in Hnil.
    + intros _. exists m, e. rewrite <-Hb. split_and!; try done; intros Heq; simpl;
        unfold result_text.
      * by rewrite decide_True.
      * by rewrite decide_False.
Qed.

Lemma stale_timer_closes_new_room_witness :
  ∃ st1 st2 r3,
    create_room 0 (Some "den") (Some ["dev"; "esha"]) voted_state
    = (st1, Created "Room den created with players." "dev") ∧
    st2 = run [CastVote (Some "den") (Some "dev") (Some "esha");
               ResetDay (Some "den"); GetStatus None] st1 ∧
    rooms (handle (TimerFires 5 "den") st2).1 !! "den" = Some r3 ∧
    game_active r3 = false ∧
    result r3 = Some "esha was eliminated. Bhadwa wins." ∧
    "den" ∈ timers (handle (TimerFires 5 "den") st2).1.
Proof.
  eexists _, _.
  destruct (stale_timer_closes_new_room 0 5 "den" ["dev"; "esha"] voted_state
              (create_room 0 (Some "den") (Some ["dev"; "esha"]) voted_state).1
              "Room den created with players." "dev"
              [CastVote (Some "den") (Some "dev") (Some "esha");
               ResetDay (Some "den"); GetStatus None])
    as (r2 & r3 & Hr2 & _ & _ & _ & Hr3 & Hact & _ & _ & _ & _ & _ & Hsome & Hts).
  - apply (bool_decide_unpack _). vm_compute. exact I.
  - reflexivity.
  - repeat constructor.
  - exists r3. split_and!; [reflexivity | reflexivity | exact Hr3 | exact Hact |
                          | exact Hts].
    vm_compute in Hr2. injection Hr2 as <-.
    destruct Hsome as (m & e & [= <-] & [= <-] & _ & Hwins); [discriminate|].
    apply Hwins. discriminate.
Defined.

(** X21: a created room starts from scratch, whatever was stored under
    its id before: it is open, has no votes and no result, lists the given
    names in the given order, and no player is marked as having voted; the
    other rooms are untouched and exactly one timer is added, for this id. *)
Theorem create_room_initial_state rnd room_id player_names st st' msg hidden :
  create_room rnd room_id player_names st = (st', Created msg hidden) →
  ∃ rid names r,
    room_id = Some rid ∧ player_names = Some names ∧
    msg = "Room " +:+ rid +:+ " created with players." ∧
    rooms st' !! rid = Some r ∧
    game_active r = true ∧ votes r = [] ∧ result r = None ∧
    dict_keys (players r) = names ∧
    (∀ name ps, dict_get name (players r) = Some ps → voted_today ps = false) ∧
    (∀ rid', rid' ≠ rid → rooms st' !! rid' = rooms st !! rid') ∧
    timers st' = timers st ++ [rid].
Proof.
  intros Hcr. pose proof Hcr as Hinv.
  apply create_room_Created_inv in Hinv
    as (rid & names & -> & -> & Hrid & Hlen & Hnd & Hch & ->).
  destruct (create_room_ok rnd rid names st Hrid Hlen Hnd) as (h & Hch' & Hok).
  assert (h = hidden) as -> by congruence.
  assert (msg = "Room " +:+ rid +:+ " created with players.") as Hmsg by congruence.
  exists rid, names, (fresh_room hidden names). split_and!; try done.
  - simpl. apply lookup_insert_eq.
  - by apply new_players_keys.
  - intros name ps Hget.
    assert (name ∈ names) as Hname.
    { rewrite <-(new_players_keys hidden names) by done.
      apply dict_get_is_Some. by eexists. }
    simpl in Hget. rewrite new_players_get in Hget by done. by injection Hget as <-.
  - intros rid' Hne. simpl. by apply lookup_insert_ne.
Qed.

Lemma create_room_initial_state_witness :
  ∃ st' r,
    create_room 0 (Some "den") (Some ["dev"; "esha"]) closed_state
    = (st', Created "Room den created with players." "dev") ∧
    rooms st' !! "den" = Some r ∧
    game_active r = true ∧ votes r = [] ∧ result r = None ∧
    timers st' = ["den"; "den"].
Proof.
  destruct (create_room_initial_state 0 (Some "den") (Some ["dev"; "esha"])
              closed_state _ _ _ eq_refl)
    as (rid & names & r & [= <-] & _ & _ & Hr & Hact & Hvs & Hres & _ & _ & _ & Hts).
  eexists _, r. split_and!; [reflexivity | exact Hr | exact Hact | exact Hvs
                           | exact Hres | exact Hts].
Defined.

(** ** Votes: acceptance, rejection, frame *)

(** X12: a vote is accepted exactly when the room exists and is open, the
    voter is a player who has not voted today and the target is a player;
    every other vote leaves the server state untouched. *)
Theorem vote_accepts_iff room_id voter vote_for st :
  ((∃ st' msg, vote room_id voter vote_for st = (st', Message msg)) ↔
   ∃ rid v t r ps,
     room_id = Some rid ∧ voter = Some v ∧ vote_for = Some t ∧
     rooms st !! rid = Some r ∧ game_active r = true ∧
     dict_get v (players r) = Some ps ∧ voted_today ps = false ∧
     t ∈ dict_keys (players r)) ∧
  ((∀ msg, (vote room_id voter vote_for st).2 ≠ Message msg) →
   (vote room_id voter vote_for st).1 = st).
Proof.
  split; [split|].
  - intros (st' & msg & Hvote).
    apply vote_Message_inv in Hvote
      as (rid & v & t & r & ps & -> & -> & -> & Hr & Hact & Hps & Hnot & Ht & _).
    by exists rid, v, t, r, ps.
  - intros (rid & v & t & r & ps & -> & -> & -> & Hr & Hact & Hps & Hnot & Ht).
    eexists _, _. by apply vote_ok.
  - intros Hrej. destruct (vote_cases room_id voter vote_for st) as [?|[msg Hmsg]];
      [done|]. by apply Hrej in Hmsg.
Qed.

Lemma vote_accepts_iff_witness :
  (∃ st' msg,
     vote (Some "den") (Some "bala") (Some "asha") voted_state = (st', Message msg)) ∧
  (vote (Some "den") (Some "asha") (Some "bala") voted_state).1 = voted_state.
Proof.
  destruct (vote_accepts_iff (Some "den") (Some "bala") (Some "asha") voted_state)
    as [[_ Hacc] _].
  destruct (vote_accepts_iff (Some "den") (Some "asha") (Some "bala") voted_state)
    as [_ Hrej].
  split.
  - apply Hacc. exists "den", "bala", "asha", voted_room, (PlayerState true false).
    split_and!; try reflexivity. apply (bool_decide_unpack _). vm_compute. exact I.
  - apply Hrej. intros msg. discriminate.
Defined.

(** X13: in an open room the voter is checked first and the target second:
    an unknown or missing voter is answered with UnknownVoter whatever the
    target, and a known voter naming an unknown or missing target is
    answered with UnknownTarget whether or not the voter has voted today;
    both leave the server state untouched. *)
Theorem vote_errors_in_order rid st r voter vote_for :
  rooms st !! rid = Some r → game_active r = true →
  (dict_mem voter (players r) = false →
   vote (Some rid) voter vote_for st = (st, UnknownVoter)) ∧
  (dict_mem voter (players r) = true → dict_mem vote_for (players r) = false →
   vote (Some rid) voter vote_for st = (st, UnknownTarget)).
Proof.
  intros Hr Hact. unfold vote. rewrite (vote_lookup _ _ _ Hr), Hact. cbn [negb].
  split.
  - by intros ->.
  - by intros -> ->.
Qed.

Lemma vote_errors_in_order_witness :
  vote (Some "den") (Some "zoya") None voted_state = (voted_state, UnknownVoter) ∧
  vote (Some "den") (Some "asha") None voted_state = (voted_state, UnknownTarget).
Proof.
  destruct (vote_errors_in_order "den" voted_state voted_room (Some "zoya") None
              eq_refl eq_refl) as [Hvoter _].
  destruct (vote_errors_in_order "den" voted_state voted_room (Some "asha") None
              eq_refl eq_refl) as [_ Htarget].
  split; [apply Hvoter | apply Htarget]; reflexivity.
Defined.

Lemma tally_dict_set target (d : dict nat) :
  sum_list (dict_values (dict_set target (default 0 (dict_get target d) + 1) d)) =
  sum_list (dict_values d) + 1.
Proof.
  unfold dict_values. induction d as [|[k n] d IH]; simpl.
  - done.
  - destruct (decide (target = k)) as [->|Hne]; simpl.
    + lia.
    + fold (@fmap list _ _ _ (@snd string nat)) in *. rewrite IH. lia.
Qed.

(** X14: an accepted vote changes nothing but the voter's [voted_today]
    flag and the target's count: the players and their order, every other
    player's entry, the voter's [is_bhadwa] flag, every other count, the
    room's [bhadwa], [game_active] and [result], the other rooms and the
    timers stay as they were, and the sum of all counts grows by one. *)
Theorem vote_frame room_id voter vote_for st st' msg :
  vote room_id voter vote_for st = (st', Message msg) →
  ∃ rid v t r r',
    room_id = Some rid ∧ voter = Some v ∧ vote_for = Some t ∧
    rooms st !! rid = Some r ∧ rooms st' !! rid = Some r' ∧
    dict_keys (players r') = dict_keys (players r) ∧
    (∀ p, p ≠ v → dict_get p (players r') = dict_get p (players r)) ∧
    is_bhadwa <$> dict_get v (players r') = is_bhadwa <$> dict_get v (players r) ∧
    (∀ p, p ≠ t → dict_get p (votes r') = dict_get p (votes r)) ∧
    tally_total r' = tally_total r + 1 ∧
    bhadwa r' = bhadwa r ∧ game_active r' = game_active r ∧ result r' = result r ∧
    (∀ rid', rid' ≠ rid → rooms st' !! rid' = rooms st !! rid') ∧
    timers st' = timers st.
Proof.
  intros Hvote.
  apply vote_Message_inv in Hvote
    as (rid & v & t & r & ps & -> & -> & -> & Hr & Hact & Hps & Hnot & Ht & -> & _).
  exists rid, v, t, r, (after_vote v t ps r). split_and!; try done.
  - simpl. apply lookup_insert_eq.
  - simpl. apply dict_keys_set_present, dict_get_is_Some. by eexists.
  - intros p Hne. simpl. by apply dict_get_set_ne.
  - simpl. by rewrite dict_get_set_eq, Hps.
  - intros p Hne. simpl. by apply dict_get_set_ne.
  - unfold tally_total. simpl. apply tally_dict_set.
  - intros rid' Hne. simpl. by apply lookup_insert_ne.
Qed.

Lemma vote_frame_witness :
  ∃ st' r',
    vote (Some "den") (Some "bala") (Some "chitra") voted_state
    = (st', Message "bala voted for chitra") ∧
    rooms st' !! "den" = Some r' ∧
    tally_total r' = 2 ∧
    dict_get "asha" (players r') = Some (PlayerState false true).
Proof.
  destruct (vote_frame (Some "den") (Some "bala") (Some "chitra") voted_state _ _ eq_refl)
    as (rid & v & t & r & r' & [= <-] & [= <-] & _ & [= <-] & Hr' & _ & Hothers & _
        & _ & Htotal & _).
  eexists _, r'. split_and!; [reflexivity | exact Hr' | exact Htotal |].
  rewrite Hothers by discriminate. reflexivity.
Defined.

(** ** Resetting and closing twice *)

Lemma new_day_idem r : new_day (new_day r) = new_day r.
Proof.
  unfold new_day, set_players. simpl. f_equal.
  rewrite <-list_fmap_compose. apply list_fmap_ext. by intros _ [k [hid voted]] _.
Qed.

(** X15: resetting a room twice in a row is the same as resetting it once:
    the second reset gives the same response and leaves the state the first
    one produced. *)
Theorem reset_votes_idempotent room_id st :
  reset_votes room_id (reset_votes room_id st).1 = reset_votes room_id st.
Proof.
  destruct (reset_votes_cases room_id st)
    as [Hnf|(rid & r & -> & Hr & [[Hact Hcl]|[Hact Hok]])].
  - by rewrite Hnf.
  - by rewrite Hcl.
  - rewrite Hok. simpl.
    rewrite (reset_votes_ok rid (store rid (new_day r) st) (new_day r));
      [|simpl; apply lookup_insert_eq|done].
    unfold store. simpl. by rewrite insert_insert_eq, new_day_idem.
Qed.

(** X16: the vote is closed once: when [end_voting] runs again for the
    same room it changes nothing, whatever it would draw, so the stored
    result is never redrawn; for an id without a room it does nothing. *)
Theorem end_voting_once rnd1 rnd2 rid st :
  end_voting rnd2 rid (end_voting rnd1 rid st) = end_voting rnd1 rid st ∧
  (rooms st !! rid = None → end_voting rnd1 rid st = st).
Proof.
  split; [|apply end_voting_absent].
  destruct (rooms st !! rid) as [r|] eqn:Hr.
  - destruct (game_active r) eqn:Hact.
    + destruct (end_voting_open rnd1 rid st r Hr Hact) as [text ->].
      eapply end_voting_closed; [simpl; apply lookup_insert_eq | done].
    + rewrite (end_voting_closed rnd1 rid st r Hr Hact).
      by apply (end_voting_closed rnd2 rid st r).
  - rewrite (end_voting_absent rnd1 rid st Hr). by apply end_voting_absent.
Qed.

Lemma end_voting_once_witness :
  end_voting 1 "den" (end_voting 0 "den" tied_state) = end_voting 0 "den" tied_state ∧
  end_voting 0 "hut" tied_state = tied_state.
Proof.
  destruct (end_voting_once 0 1 "den" tied_state) as [Htwice _].
  destruct (end_voting_once 0 1 "hut" tied_state) as [_ Habsent].
  split; [exact Htwice | apply Habsent; reflexivity].
Defined.

(** ** Who is eliminated *)

(** X17: with a clear leader the draw does not matter: when one player
    holds strictly more votes than every other player, closing the vote
    eliminates that player for every random draw. *)
Theorem clear_leader_eliminated rnd rid st r p m :
  rooms st !! rid = Some r → game_active r = true → dict_wf (votes r) →
  dict_get p (votes r) = Some m →
  (∀ q v, q ≠ p → dict_get q (votes r) = Some v → v < m) →
  end_voting rnd rid st = store rid (closed_with (result_text p (bhadwa r)) r) st.
Proof.
  intros Hr Hact Hwf Hp Hlead.
  assert (votes r ≠ []) as Hvs by (intros Hnil; by rewrite Hnil in Hp).
  destruct (end_voting_some_votes rnd rid st r Hr Hact Hvs) as (m' & e & Hm' & He & ->).
  destruct (candidates_nonempty (votes r) Hvs) as (m0 & Hm0 & Hub & _).
  assert (m0 = m') as -> by congruence.
  assert (m ≤ m') as Hle by (eapply Hub; by apply dict_get_Some_elem).
  apply choice_elem, candidates_get in He; [|done].
  destruct (decide (e = p)) as [->|Hne]; [done|].
  specialize (Hlead e m' Hne He). lia.
Qed.

Lemma clear_leader_eliminated_witness :
  end_voting 6 "den" voted_state = closed_state.
Proof.
  apply (clear_leader_eliminated 6 "den" voted_state voted_room "chitra" 1).
  - reflexivity.
  - reflexivity.
  - apply (bool_decide_unpack _). vm_compute. exact I.
  - reflexivity.
  - intros q v Hne Hq. simpl in Hq.
    destruct (decide (q = "chitra")); [done | discriminate].
Defined.

(** X18: in every room a run can produce, closing an open vote with a
    non-empty tally eliminates one of the room's own players, and one who
    holds at least one vote. *)
Theorem eliminated_is_a_voted_player rnd st rid r :
  reachable st → rooms st !! rid = Some r → game_active r = true →
  votes r ≠ [] →
  ∃ eliminated n,
    eliminated ∈ dict_keys (players r) ∧
    dict_get eliminated (votes r) = Some n ∧ 1 ≤ n ∧
    end_voting rnd rid st =
      store rid (closed_with (result_text eliminated (bhadwa r)) r) st.
Proof.
  intros Hreach Hr Hact Hvs.
  destruct (reachable_rooms_ok st Hreach rid r Hr) as (_ & Hwf & Hsub).
  destruct (end_voting_some_votes rnd rid st r Hr Hact Hvs) as (m & e & Hm & He & ->).
  apply choice_elem, candidates_get in He; [|done].
  exists e, m. split_and!; [|done| |done].
  - apply Hsub, dict_get_is_Some. by eexists.
  - by eapply (reachable_counts_positive st rid r).
Qed.

Lemma eliminated_is_a_voted_player_witness :
  ∃ eliminated n,
    eliminated ∈ dict_keys (players voted_room) ∧
    dict_get eliminated (votes voted_room) = Some n ∧ 1 ≤ n ∧
    end_voting 2 "den" voted_state =
      store "den" (closed_with (result_text eliminated "bala") voted_room) voted_state.
Proof.
  apply (eliminated_is_a_voted_player 2 voted_state "den" voted_room).
  - exact reachable_voted_state.
  - reflexivity.
  - reflexivity.
  - discriminate.
Defined.

(** ** Missing rooms and exceptions *)

(** X19: for a room id that is missing from the request or not registered,
    [vote], [reset_votes] and [status] all answer RoomNotFound (404) and
    leave the server state untouched, whatever the other fields hold. *)
Theorem unknown_room_not_found room_id voter vote_for st :
  room_id ≫= (λ rid, rooms st !! rid) = None →
  vote room_id voter vote_for st = (st, RoomNotFound) ∧
  reset_votes room_id st = (st, RoomNotFound) ∧
  status room_id st = (st, RoomNotFound).
Proof.
  intros Hnone. unfold vote, reset_votes, status. rewrite Hnone.
  destruct room_id as [rid|]; [|done]. simpl in Hnone. simpl. by rewrite Hnone.
Qed.

Lemma unknown_room_not_found_witness :
  vote (Some "hut") (Some "asha") (Some "bala") voted_state
  = (voted_state, RoomNotFound) ∧
  reset_votes None voted_state = (voted_state, RoomNotFound) ∧
  status (Some "") voted_state = (voted_state, RoomNotFound).
Proof.
  destruct (unknown_room_not_found (Some "hut") (Some "asha") (Some "bala")
              voted_state eq_refl) as (Hvote & _ & _).
  destruct (unknown_room_not_found None None None voted_state eq_refl)
    as (_ & Hreset & _).
  destruct (unknown_room_not_found (Some "") None None voted_state eq_refl)
    as (_ & _ & Hstatus).
  split_and!; [exact Hvote | exact Hreset | exact Hstatus].
Defined.

(** X20: no handler raises on string or missing fields: [create_room],
    [vote], [reset_votes] and [status] never end in an unhandled exception,
    and [end_voting] on an open room always gets through [max] and
    [random.choice] and stores a result. *)
Theorem handlers_never_raise rnd room_id player_names voter vote_for st :
  (create_room rnd room_id player_names st).2 ≠ Crashed ∧
  (vote room_id voter vote_for st).2 ≠ Crashed ∧
  (reset_votes room_id st).2 ≠ Crashed ∧
  (status room_id st).2 ≠ Crashed ∧
  (∀ rid r, rooms st !! rid = Some r → game_active r = true →
     ∃ r', rooms (end_voting rnd rid st) !! rid = Some r' ∧
           game_active r' = false ∧ is_Some (result r')).
Proof.
  split_and!.
  - unfold create_room.
    destruct (falsy_str room_id || falsy_list player_names) eqn:Hfalsy; [done|].
    apply orb_false_iff in Hfalsy as [_ Hnames].
    destruct room_id as [rid|], player_names as [names|]; try done.
    destruct (_ || _); [done|]. destruct (negb _); [done|].
    destruct (choice_is_Some rnd names) as [h ->]; [by destruct names | done].
  - unfold vote. destruct (room_id ≫= _) as [[rid r]|]; [|done].
    destruct (negb (game_active r)); [done|].
    destruct (dict_mem voter (players r)) eqn:Hv; [|done].
    destruct (dict_mem vote_for (players r)) eqn:Ht; [|done]. cbn [negb].
    apply dict_mem_true_inv in Hv as (v & -> & Hv).
    apply dict_mem_true_inv in Ht as (t & -> & Ht).
    apply dict_get_is_Some in Hv as [ps ->]. by destruct (voted_today ps).
  - unfold reset_votes. destruct (room_id ≫= _) as [[rid r]|]; [|done].
    by destruct (negb (game_active r)).
  - unfold status. by destruct (room_id ≫= _).
  - intros rid r Hr Hact. destruct (end_voting_open rnd rid st r Hr Hact) as [text ->].
    eexists. split; [simpl; apply lookup_insert_eq|]. split; [done | by eexists].
Qed.

Lemma handlers_never_raise_witness :
  ∃ r', rooms (end_voting 3 "den" tied_state) !! "den" = Some r' ∧
        game_active r' = false ∧ is_Some (result r').
Proof.
  destruct (handlers_never_raise 3 (Some "den") None None None tied_state)
    as (_ & _ & _ & _ & Hend).
  apply (Hend "den" tied_room); reflexivity.
Defined.
